(** * IoT device dashboard: heatmap colours, catalog normalisation,
      telemetry and alert state, attack status

    A shallow embedding of [src/IoTDevices.js].  JavaScript numbers are taken
    as rationals ([Q]), instants as integer milliseconds since the epoch ([Z],
    the time value of a [Date]), strings as [string].  React state is an
    explicit record; every [setX] call is a functional update of one field. *)

From Stdlib Require Import ZArith QArith Lqa Bool List String Ascii Lia.
From Stdlib Require FinFun.
Import ListNotations.

(** ** Comparisons on rationals, as booleans *)

Definition Qltb (a b : Q) : bool := negb (Qle_bool b a).

(** ** The heatmap colour scale ([DeviceHeatmap], [getColor]) *)

Module Heatmap.

Local Open Scope Q_scope.

(** The CSS colour [rgba(r, g, b, a)] that the template literal builds; each
    channel keeps the number that is printed into the string. *)
Record Rgba : Type := rgba { red : Q; green : Q; blue : Q; alpha : Q }.

(** Numbers are exact rationals: the comparisons are those of the doubles,
    the channel expressions are the unrounded values. *)
Definition getColor (value : Q) : Rgba :=
  if Qeq_bool value 0 then rgba 0 0 0 0
  else if Qltb value 10 then rgba 0 0 255 (value / 20)
  else if Qltb value 30 then rgba 0 (255 - (value - 10) * 8) 255 (5 # 10)
  else if Qltb value 60 then
    rgba ((value - 30) * 8) 255 (255 - (value - 30) * 8) (6 # 10)
  else if Qltb value 80 then rgba 255 (255 - (value - 60) * 12) 0 (7 # 10)
  else rgba 255 0 0 (8 # 10).

End Heatmap.

(** ** The device catalog ([fetchDevices]: filter, then rename) *)

Module Catalog.

Local Open Scope string_scope.

(** [s.includes(w)]: [w] occurs in [s] as a contiguous substring. *)
Fixpoint includes (s w : string) : bool :=
  prefix w s ||
  match s with
  | EmptyString => false
  | String _ rest => includes rest w
  end.

(** One entry of the [devices] array of [GET /api/devices]; [status] is not
    read by the page and may be absent. *)
Record Device : Type := {
  client_id : string;
  name : string;
  device_type : string;
  status : option string
}.

(** The predicate handed to [data.devices.filter]. *)
Definition isIoTDevice (device : Device) : bool :=
  (device_type device =? "mouse") ||
  (device_type device =? "keyboard") ||
  (device_type device =? "headset") ||
  (device_type device =? "mouse_sensor") ||
  (device_type device =? "keyboard_sensor") ||
  (device_type device =? "headset_sensor").

(** The object literal returned by each of the three renaming branches:
    [{...device, name: ..., device_type: ...}] for the branch whose bare kind
    is [legacy] and whose qualified kind is [sensor]. *)
Definition renamedAs (legacy sensor : string) (device : Device) : Device :=
  {| client_id := client_id device;
     name := if includes (name device) "Sensor" then name device
             else name device ++ " Sensor";
     device_type := if device_type device =? legacy then sensor
                    else device_type device;
     status := status device |}.

(** The function handed to [iotDevices.map]. *)
Definition renameDevice (device : Device) : Device :=
  if (device_type device =? "mouse") || includes (name device) "Mouse"
  then renamedAs "mouse" "mouse_sensor" device
  else if (device_type device =? "keyboard") || includes (name device) "Keyboard"
  then renamedAs "keyboard" "keyboard_sensor" device
  else if (device_type device =? "headset") || includes (name device) "Headset"
  then renamedAs "headset" "headset_sensor" device
  else device.

Definition iotDevices (devices : list Device) : list Device :=
  filter isIoTDevice devices.

Definition renamedDevices (devices : list Device) : list Device :=
  map renameDevice (iotDevices devices).

(** The catalog used when the request fails. *)
Definition fallbackDevices : list Device :=
  [ {| client_id := "mouse-001"; name := "Gaming Mouse Sensor";
       device_type := "mouse_sensor"; status := Some "active" |};
    {| client_id := "keyboard-001"; name := "Gaming Keyboard Sensor";
       device_type := "keyboard_sensor"; status := Some "active" |} ].

(** [list[0].client_id], for a list known to be non-empty. *)
Definition firstClientId (list : list Device) : option string :=
  match list with
  | first :: _ => Some (client_id first)
  | [] => None
  end.

End Catalog.

(** ** The dashboard page ([IoTDevices]): state, fetches, attack status *)

Module Dashboard.

Local Open Scope string_scope.
Local Open Scope Z_scope.

(** *** Data *)

(** A [timestamp] field: text that [new Date(...)] reads.  Text that it
    reads as a date (the ISO-8601 text of [toISOString], printed to the
    millisecond and read back, or any other format it accepts) is kept as
    the instant it denotes, in milliseconds; text that it cannot read gives
    an invalid date. *)
Inductive Timestamp : Type :=
| IsoTime (ms : Z)
| NotADate (text : string).

(** [new Date(timestamp)]: the time value, or [None] for Invalid Date. *)
Definition newDate (timestamp : Timestamp) : option Z :=
  match timestamp with
  | IsoTime ms => Some ms
  | NotADate _ => None
  end.

(** [new Date().toISOString()] when the clock reads [now]. *)
Definition toISOString (now : Z) : Timestamp := IsoTime now.

(** The [status] object of a sample; a field that may be absent is an
    option ([{ under_attack: false }] has only the flag). *)
Record Status : Type := {
  under_attack : bool;
  attack_duration : option Q;
  battery_level : option Q;
  connection_quality : option Q
}.

Record Sample : Type := {
  device_id : string;
  session_id : string;
  sample_timestamp : Timestamp;
  metrics : option (list (string * Q));
  status : option Status
}.

Inductive Detail : Type :=
| Text (s : string)
| Number (q : Q).

Record Alert : Type := {
  timestamp : Timestamp;
  event_type : string;
  details : list (string * Detail);
  severity : string
}.

(** The eight [useState] cells of the component. *)
Record State : Type := {
  devices : list Catalog.Device;
  selectedDevice : option string;
  deviceData : list Sample;
  securityAlerts : list Alert;
  loading : bool;
  error : option string;
  refreshInterval : Z;
  isRefreshing : bool
}.

Definition initialState : State :=
  {| devices := []; selectedDevice := None; deviceData := [];
     securityAlerts := []; loading := true; error := None;
     refreshInterval := 5; isRefreshing := true |}.

Definition setDevices (v : list Catalog.Device) (s : State) : State :=
  {| devices := v; selectedDevice := selectedDevice s;
     deviceData := deviceData s; securityAlerts := securityAlerts s;
     loading := loading s; error := error s;
     refreshInterval := refreshInterval s; isRefreshing := isRefreshing s |}.

Definition setSelectedDevice (v : option string) (s : State) : State :=
  {| devices := devices s; selectedDevice := v;
     deviceData := deviceData s; securityAlerts := securityAlerts s;
     loading := loading s; error := error s;
     refreshInterval := refreshInterval s; isRefreshing := isRefreshing s |}.

Definition setDeviceData (v : list Sample) (s : State) : State :=
  {| devices := devices s; selectedDevice := selectedDevice s;
     deviceData := v; securityAlerts := securityAlerts s;
     loading := loading s; error := error s;
     refreshInterval := refreshInterval s; isRefreshing := isRefreshing s |}.

Definition setSecurityAlerts (v : list Alert) (s : State) : State :=
  {| devices := devices s; selectedDevice := selectedDevice s;
     deviceData := deviceData s; securityAlerts := v;
     loading := loading s; error := error s;
     refreshInterval := refreshInterval s; isRefreshing := isRefreshing s |}.

Definition setLoading (v : bool) (s : State) : State :=
  {| devices := devices s; selectedDevice := selectedDevice s;
     deviceData := deviceData s; securityAlerts := securityAlerts s;
     loading := v; error := error s;
     refreshInterval := refreshInterval s; isRefreshing := isRefreshing s |}.

Definition setError (v : option string) (s : State) : State :=
  {| devices := devices s; selectedDevice := selectedDevice s;
     deviceData := deviceData s; securityAlerts := securityAlerts s;
     loading := loading s; error := v;
     refreshInterval := refreshInterval s; isRefreshing := isRefreshing s |}.

Definition setRefreshInterval (v : Z) (s : State) : State :=
  {| devices := devices s; selectedDevice := selectedDevice s;
     deviceData := deviceData s; securityAlerts := securityAlerts s;
     loading := loading s; error := error s;
     refreshInterval := v; isRefreshing := isRefreshing s |}.

Definition setIsRefreshing (v : bool) (s : State) : State :=
  {| devices := devices s; selectedDevice := selectedDevice s;
     deviceData := deviceData s; securityAlerts := securityAlerts s;
     loading := loading s; error := error s;
     refreshInterval := refreshInterval s; isRefreshing := v |}.

(** JavaScript truthiness of [selectedDevice]: [null] and the empty string
    (the value of the "Select an IoT sensor" option) are falsy. *)
Definition truthy (selected : option string) : bool :=
  match selected with
  | Some id => negb (id =? "")%string
  | None => false
  end.

(** *** Awaited calls *)

(** How an awaited call ends inside a [try]: the promise rejects (or anything
    before the state update throws), or it resolves to a result, which may be
    [null] or [undefined] ([None]); reading a property of that throws. *)
Inductive Settled (A : Type) : Type :=
| Rejected
| Resolved (result : option A).

Arguments Rejected {A}.
Arguments Resolved {A} result.

(** Modelled from the spec: [getIoTDeviceData] and [getDeviceSecurityAlerts]
    of [utils/api] are not among the sources.  The request gets no reply, or
    a reply with a success flag and a body that decodes ([Some]) or is
    malformed ([None]).  A transport failure (no reply, or a status that is
    not a success) and a decode failure both make the awaited call throw, as
    the inline [fetch] of the earlier version of the page does; otherwise it
    resolves to the decoded body. *)
Inductive Reply (A : Type) : Type :=
| NoReply
| Replied (ok : bool) (body : option A).

Arguments NoReply {A}.
Arguments Replied {A} ok body.

Definition awaited {A : Type} (reply : Reply A) : Settled A :=
  match reply with
  | Replied true (Some body) => Resolved (Some body)
  | Replied true None | Replied false _ | NoReply => Rejected
  end.

(** The body of [GET /api/metrics/iot_data/{id}]; [data] may be absent. *)
Record DeviceDataResult : Type := { data : option (list Sample) }.

(** The body of [GET /api/security/device_alerts/{id}]. *)
Record SecurityAlertsResult : Type := { alerts : option (list Alert) }.

(** [value || []] *)
Definition orEmpty {A : Type} (value : option (list A)) : list A :=
  match value with
  | Some l => l
  | None => []
  end.

(** *** [fetchDevices] *)

(** Runs with the [selectedDevice] its closure captured ([selected]); the
    response is [Some devices] when the request succeeded with a body whose
    [devices] is an array, [None] when anything in the [try] block threw. *)
Definition fetchDevices (selected : option string)
    (response : option (list Catalog.Device)) (s : State) : State :=
  match response with
  | Some devices =>
      let renamedDevices := Catalog.renamedDevices devices in
      let s := setDevices renamedDevices s in
      let s :=
        if (0 <? List.length renamedDevices)%nat && negb (truthy selected)
        then setSelectedDevice (Catalog.firstClientId renamedDevices) s
        else s in
      setLoading false s
  | None =>
      let s := setError (Some "Failed to load devices. Please try again.") s in
      let s := setDevices Catalog.fallbackDevices s in
      let s :=
        if negb (truthy selected)
        then setSelectedDevice (Catalog.firstClientId Catalog.fallbackDevices) s
        else s in
      setLoading false s
  end.

(** *** [fetchDeviceData] and [fetchSecurityAlerts] *)

(** The sample installed by the [catch] block, the clock reading [now]. *)
Definition fallbackSample (deviceId : string) (now : Z) : Sample :=
  {| device_id := deviceId;
     session_id := "fallback-session";
     sample_timestamp := toISOString now;
     metrics := Some [ ("clicks_per_second", 4%Q); ("movements_count", 120%Q);
                       ("dpi", 16000%Q); ("polling_rate", 1000%Q);
                       ("avg_click_distance", (425 # 10)%Q);
                       ("button_count", 8%Q) ];
     status := Some {| under_attack := false;
                       attack_duration := Some 0%Q;
                       battery_level := Some 85%Q;
                       connection_quality := Some 95%Q |} |}.

Definition fetchDeviceData (deviceId : string) (now : Z)
    (outcome : Settled DeviceDataResult) (s : State) : State :=
  match outcome with
  | Resolved (Some result) => setDeviceData (orEmpty (data result)) s
  | Resolved None | Rejected => setDeviceData [fallbackSample deviceId now] s
  end.

(** The alert installed by the [catch] block, the clock reading [now]. *)
Definition fallbackAlert (now : Z) : Alert :=
  {| timestamp := toISOString now;
     event_type := "attack_detected";
     details := [ ("attack_type", Text "ping_flood");
                  ("intensity", Number 72%Q); ("threshold", Number 50%Q) ];
     severity := "critical" |}.

Definition fetchSecurityAlerts (deviceId : string) (now : Z)
    (outcome : Settled SecurityAlertsResult) (s : State) : State :=
  match outcome with
  | Resolved (Some result) => setSecurityAlerts (orEmpty (alerts result)) s
  | Resolved None | Rejected => setSecurityAlerts [fallbackAlert now] s
  end.

(** *** Attack status ([renderDeviceStatus]) *)

Definition getMostRecentData (s : State) : option Sample :=
  if (List.length (deviceData s) =? 0)%nat then None
  else nth_error (deviceData s) (List.length (deviceData s) - 1).

Definition getDeviceStatus (s : State) : Status :=
  match getMostRecentData s with
  | Some recent =>
      match status recent with
      | Some st => st
      | None => {| under_attack := false; attack_duration := None;
                   battery_level := None; connection_quality := None |}
      end
  | None => {| under_attack := false; attack_duration := None;
               battery_level := None; connection_quality := None |}
  end.

(** [(now - alertTime) / 1000]; not a number when the date is invalid. *)
Definition timeDiff (now : Z) (alertTime : option Z) : option Q :=
  match alertTime with
  | Some t => Some (inject_Z (now - t) / 1000)%Q
  | None => None
  end.

(** [x < bound], false when [x] is not a number. *)
Definition lessThan (x : option Q) (bound : Q) : bool :=
  match x with
  | Some q => Qltb q bound
  | None => false
  end.

(** The callback of [securityAlerts.some], [now] being its own clock read. *)
Definition recentCritical (now : Z) (alert : Alert) : bool :=
  (severity alert =? "critical")%string &&
  lessThan (timeDiff now (newDate (timestamp alert))) 60.

(** [securityAlerts.some(...)]: the callback reads the clock once per alert
    it visits; [clock k] is the reading for the alert at index [k]. *)
Fixpoint someRecentCritical (clock : nat -> Z) (k : nat) (alerts : list Alert)
    : bool :=
  match alerts with
  | [] => false
  | alert :: rest =>
      recentCritical (clock k) alert || someRecentCritical clock (S k) rest
  end.

Definition hasRecentCriticalAlert (clock : nat -> Z) (s : State) : bool :=
  someRecentCritical clock 0 (securityAlerts s).

Definition isAttacked (clock : nat -> Z) (s : State) : bool :=
  under_attack (getDeviceStatus s) || hasRecentCriticalAlert clock s.

(** [status.attack_duration || 0], the duration shown under attack. *)
Definition attackDuration (s : State) : Q :=
  match attack_duration (getDeviceStatus s) with
  | Some q => if Qeq_bool q 0 then 0%Q else q
  | None => 0%Q
  end.

(** A render during which the clock stays at [now]. *)
Definition renderedAt (now : Z) (s : State) : bool * Q :=
  (isAttacked (fun _ => now) s, attackDuration s).

(** *** The page as a transition system *)

(** Requests that have been sent and have not settled yet. *)
Inductive Request : Type :=
| DevicesRequest (selected : option string)
| DeviceDataRequest (deviceId : string)
| SecurityAlertsRequest (deviceId : string).

Record World : Type := { ui : State; inflight : list Request }.

Inductive Event : Type :=
| SelectChanged (value : string)
| IntervalChanged (seconds : Z)
| PauseClicked
| DevicesTimer
| DataTimer
| DevicesSettled (selected : option string)
    (response : option (list Catalog.Device))
| DeviceDataSettled (deviceId : string) (now : Z)
    (outcome : Settled DeviceDataResult)
| SecurityAlertsSettled (deviceId : string) (now : Z)
    (outcome : Settled SecurityAlertsResult).

Definition selection_eqb (a b : option string) : bool :=
  match a, b with
  | Some x, Some y => (x =? y)%string
  | None, None => true
  | _, _ => false
  end.

Definition request_eqb (a b : Request) : bool :=
  match a, b with
  | DevicesRequest x, DevicesRequest y => selection_eqb x y
  | DeviceDataRequest x, DeviceDataRequest y => (x =? y)%string
  | SecurityAlertsRequest x, SecurityAlertsRequest y => (x =? y)%string
  | _, _ => false
  end.

(** [fetchData] of the data effect: both requests, for the selected device. *)
Definition fetchData (s : State) : list Request :=
  match selectedDevice s with
  | Some id =>
      if isRefreshing s && truthy (Some id)
      then [DeviceDataRequest id; SecurityAlertsRequest id]
      else []
  | None => []
  end.

(** The two effects after a commit: the catalog effect depends on
    [selectedDevice]; the data effect on [selectedDevice], [refreshInterval]
    and [isRefreshing].  Each calls its fetch at once when it re-runs. *)
Definition effects (before after : State) : list Request :=
  (if selection_eqb (selectedDevice before) (selectedDevice after) then []
   else [DevicesRequest (selectedDevice after)]) ++
  (if selection_eqb (selectedDevice before) (selectedDevice after) &&
      (refreshInterval before =? refreshInterval after) &&
      Bool.eqb (isRefreshing before) (isRefreshing after)
   then []
   else fetchData after).

Definition commit (pending : list Request) (before after : State) : World :=
  {| ui := after; inflight := pending ++ effects before after |}.

(** Removes the first occurrence of a request, if it is in flight. *)
Fixpoint settle (r : Request) (pending : list Request) : option (list Request) :=
  match pending with
  | [] => None
  | p :: rest =>
      if request_eqb r p then Some rest
      else option_map (cons p) (settle r rest)
  end.

(** The page just after mounting: both effects have run once. *)
Definition mounted : World :=
  {| ui := initialState;
     inflight := [DevicesRequest None] ++ fetchData initialState |}.

Definition step (w : World) (e : Event) : option World :=
  match e with
  | SelectChanged value =>
      Some (commit (inflight w) (ui w) (setSelectedDevice (Some value) (ui w)))
  | IntervalChanged seconds =>
      Some (commit (inflight w) (ui w) (setRefreshInterval seconds (ui w)))
  | PauseClicked =>
      Some (commit (inflight w) (ui w)
              (setIsRefreshing (negb (isRefreshing (ui w))) (ui w)))
  | DevicesTimer =>
      Some {| ui := ui w;
              inflight := inflight w ++ [DevicesRequest (selectedDevice (ui w))] |}
  | DataTimer =>
      Some {| ui := ui w; inflight := inflight w ++ fetchData (ui w) |}
  | DevicesSettled selected response =>
      match settle (DevicesRequest selected) (inflight w) with
      | Some pending =>
          Some (commit pending (ui w) (fetchDevices selected response (ui w)))
      | None => None
      end
  | DeviceDataSettled deviceId now outcome =>
      match settle (DeviceDataRequest deviceId) (inflight w) with
      | Some pending =>
          Some (commit pending (ui w) (fetchDeviceData deviceId now outcome (ui w)))
      | None => None
      end
  | SecurityAlertsSettled deviceId now outcome =>
      match settle (SecurityAlertsRequest deviceId) (inflight w) with
      | Some pending =>
          Some (commit pending (ui w)
                  (fetchSecurityAlerts deviceId now outcome (ui w)))
      | None => None
      end
  end.

Fixpoint run (w : World) (events : list Event) : option World :=
  match events with
  | [] => Some w
  | e :: rest =>
      match step w e with
      | Some w' => run w' rest
      | None => None
      end
  end.

End Dashboard.

(** ** Arrays *)

(** [array.map((value, index) => f(value, index))], counting from [index]. *)
Fixpoint mapIndexed {A B : Type} (f : A -> nat -> B) (index : nat) (l : list A)
    : list B :=
  match l with
  | [] => []
  | value :: rest => f value index :: mapIndexed f (S index) rest
  end.

(** ** The heatmap grid ([DeviceHeatmap]: one cell per value) *)

Module HeatmapGrid.

(** [heatmapType] is only ever set to ['position'] or ['click']. *)
Inductive HeatmapType : Type := position | click.

(** The body of [GET /api/metrics/iot_heatmap/{id}]; [width] and [height]
    are [resolution.width] and [resolution.height], counts of cells. *)
Record HeatmapData : Type := {
  position_heatmap : list (list Q);
  click_heatmap : list (list Q);
  width : nat;
  height : nat
}.

Definition currentHeatmap (heatmapType : HeatmapType) (heatmapData : HeatmapData)
    : list (list Q) :=
  match heatmapType with
  | position => position_heatmap heatmapData
  | click => click_heatmap heatmapData
  end.

(** A cell coordinate.  With [width] 0, [index % width] is not a number and
    [Math.floor(index / width)] is not a number for index 0 and infinite for
    the others. *)
Inductive Coord : Type :=
| Finite (n : nat)
| Infinity
| NaN.

Definition remainder (index width : nat) : Coord :=
  if (width =? 0)%nat then NaN else Finite (index mod width).

Definition quotient (index width : nat) : Coord :=
  if (width =? 0)%nat then (if (index =? 0)%nat then NaN else Infinity)
  else Finite (index / width).

(** [c + 1] *)
Definition next (c : Coord) : Coord :=
  match c with
  | Finite n => Finite (S n)
  | Infinity => Infinity
  | NaN => NaN
  end.

(** One [div] of the grid: its React key [`${x}-${y}`] as the pair, its
    background colour and its place in the CSS grid. *)
Record Cell : Type := {
  key : Coord * Coord;
  backgroundColor : Heatmap.Rgba;
  gridColumn : Coord;
  gridRow : Coord
}.

(** The callback of [currentHeatmap.flat().map]. *)
Definition cell (heatmapData : HeatmapData) (value : Q) (index : nat) : Cell :=
  let x := remainder index (width heatmapData) in
  let y := quotient index (width heatmapData) in
  {| key := (x, y);
     backgroundColor := Heatmap.getColor value;
     gridColumn := next x;
     gridRow := next y |}.

Definition cells (heatmapType : HeatmapType) (heatmapData : HeatmapData)
    : list Cell :=
  mapIndexed (cell heatmapData) 0 (List.concat (currentHeatmap heatmapType heatmapData)).

End HeatmapGrid.

(** ** What the page shows ([getLatestMetrics], the formatting helpers,
       the alert table, the button heatmap) *)

Module Views.

Import Dashboard.
Local Open Scope string_scope.

Definition getLatestMetrics (s : State) : option (list (string * Q)) :=
  match getMostRecentData s with
  | Some recent => metrics recent
  | None => None
  end.

(** *** Characters *)

(** The class [\w] of a regular expression without the unicode flag:
    ASCII letters, digits and the underscore.  Strings are kept as UTF-8
    bytes; every byte of a character outside ASCII is outside the class, as
    the character itself is. *)
Definition isWordChar (c : ascii) : bool :=
  let n := nat_of_ascii c in
  ((48 <=? n) && (n <=? 57) || (65 <=? n) && (n <=? 90) ||
   (97 <=? n) && (n <=? 122) || (n =? 95))%nat.

(** [c.toUpperCase()] for an ASCII character. *)
Definition toUpperCase (c : ascii) : ascii :=
  let n := nat_of_ascii c in
  if ((97 <=? n) && (n <=? 122))%nat then ascii_of_nat (n - 32) else c.

(** *** [formatEventType] *)

(** [s.replace(/_/g, ' ')] *)
Fixpoint replaceUnderscores (s : string) : string :=
  match s with
  | EmptyString => EmptyString
  | String c rest =>
      String (if Ascii.eqb c "_" then " "%char else c) (replaceUnderscores rest)
  end.

(** [s.replace(/\b\w/g, c => c.toUpperCase())]: a word character is replaced
    when the character before it, if any, is not a word character;
    [afterWordChar] tells whether the preceding character is one. *)
Fixpoint capitalizeWords (afterWordChar : bool) (s : string) : string :=
  match s with
  | EmptyString => EmptyString
  | String c rest =>
      String (if isWordChar c && negb afterWordChar then toUpperCase c else c)
             (capitalizeWords (isWordChar c) rest)
  end.

Definition formatEventType (eventType : string) : string :=
  if eventType =? "attack_detected" then "Network Attack Detected"
  else if eventType =? "attack_resolved" then "Attack Mitigation Successful"
  else capitalizeWords false (replaceUnderscores eventType).

(** *** [formatMetricName] *)

(** [key.split('_')] *)
Fixpoint split (key : string) : list string :=
  match key with
  | EmptyString => [EmptyString]
  | String c rest =>
      if Ascii.eqb c "_" then EmptyString :: split rest
      else match split rest with
           | word :: words => String c word :: words
           | [] => [String c EmptyString]
           end
  end.

(** [word.charAt(0).toUpperCase() + word.slice(1)], for a word that starts
    with an ASCII character or is empty. *)
Definition capitalize (word : string) : string :=
  match word with
  | EmptyString => EmptyString
  | String c rest => String (toUpperCase c) rest
  end.

Definition formatMetricName (key : string) : string :=
  String.concat " " (map capitalize (split key)).

(** *** The alert table ([renderSecurityAlerts]) *)

(** One [tr]: its key, the event-type cell and the background of the
    severity badge; the timestamp, severity text and details cells are
    computed from [shown] alone. *)
Record AlertRow : Type := {
  rowKey : nat;
  eventTypeCell : string;
  badgeBackground : string;
  shown : Alert
}.

Definition alertRow (alert : Alert) (index : nat) : AlertRow :=
  {| rowKey := index;
     eventTypeCell := formatEventType (event_type alert);
     badgeBackground := if severity alert =? "critical"
                        then "var(--error-color)" else "#ff9800";
     shown := alert |}.

(** [None] is the card that says there are no alerts; otherwise the rows of
    the table, from [securityAlerts.slice().reverse().map(...)]. *)
Definition renderSecurityAlerts (s : State) : option (list AlertRow) :=
  if (List.length (securityAlerts s) =? 0)%nat then None
  else Some (mapIndexed alertRow 0 (rev (securityAlerts s))).

(** *** The button heatmap *)

(** [devices.find(d => d.client_id === selectedDevice)] *)
Definition selectedDeviceObj (s : State) : option Catalog.Device :=
  match selectedDevice s with
  | Some id => find (fun d => Catalog.client_id d =? id) (devices s)
  | None => None
  end.

(** Whether [MouseButtonHeatmap] is rendered: inside the branch taken when
    [selectedDevice] is truthy, for a found device whose kind includes
    "mouse". *)
Definition showsMouseButtonHeatmap (s : State) : bool :=
  truthy (selectedDevice s) &&
  match selectedDeviceObj s with
  | Some d => Catalog.includes (Catalog.device_type d) "mouse"
  | None => false
  end.

End Views.
(** * Properties *)

(** ** Rational comparisons *)

Lemma Qltb_true (a b : Q) : (a < b)%Q -> Qltb a b = true.
Proof.
  intros H. unfold Qltb.
  destruct (Qle_bool b a) eqn:E; [|reflexivity].
  apply Qle_bool_iff in E. exfalso. exact (Qlt_not_le _ _ H E).
Qed.

Lemma Qltb_false (a b : Q) : (b <= a)%Q -> Qltb a b = false.
Proof.
  intros H. unfold Qltb. apply Qle_bool_iff in H. now rewrite H.
Qed.

Lemma Qltb_lt (a b : Q) : Qltb a b = true <-> (a < b)%Q.
Proof.
  split; [|apply Qltb_true].
  unfold Qltb. intros H. apply Qnot_le_lt. intros L.
  apply Qle_bool_iff in L. rewrite L in H. discriminate.
Qed.

Lemma Qeq_bool_false (a b : Q) : ~ (a == b)%Q -> Qeq_bool a b = false.
Proof.
  intros H. destruct (Qeq_bool a b) eqn:E; [|reflexivity].
  apply Qeq_bool_iff in E. contradiction.
Qed.

(** ** Heatmap colour bands *)

Module HeatmapFacts.

Import Heatmap.
Local Open Scope Q_scope.

(** The six branches, one lemma each. *)

Lemma getColor_zero (v : Q) : v == 0 -> getColor v = rgba 0 0 0 0.
Proof.
  intros H. unfold getColor. apply Qeq_bool_iff in H. now rewrite H.
Qed.

Lemma nonzero_of_pos (v : Q) : 0 < v -> Qeq_bool v 0 = false.
Proof.
  intros H. apply Qeq_bool_false. intros E. rewrite E in H.
  exact (Qlt_irrefl _ H).
Qed.

Ltac positive_value v :=
  rewrite (nonzero_of_pos v)
    by (eapply Qlt_le_trans; [|eassumption]; reflexivity).

Ltac skip_band v bound :=
  rewrite (Qltb_false v bound)
    by (eapply Qle_trans; [|eassumption]; discriminate).

Lemma getColor_blue (v : Q) :
  0 < v -> v < 10 -> getColor v = rgba 0 0 255 (v / 20).
Proof.
  intros H0 H1. unfold getColor.
  rewrite (nonzero_of_pos v H0), (Qltb_true v 10 H1). reflexivity.
Qed.

Lemma getColor_green_ramp (v : Q) :
  10 <= v -> v < 30 -> getColor v = rgba 0 (255 - (v - 10) * 8) 255 (5 # 10).
Proof.
  intros H0 H1. unfold getColor. positive_value v.
  rewrite (Qltb_false v 10 H0), (Qltb_true v 30 H1). reflexivity.
Qed.

Lemma getColor_cyan_to_yellow (v : Q) :
  30 <= v -> v < 60 ->
  getColor v = rgba ((v - 30) * 8) 255 (255 - (v - 30) * 8) (6 # 10).
Proof.
  intros H0 H1. unfold getColor. positive_value v. skip_band v 10.
  rewrite (Qltb_false v 30 H0), (Qltb_true v 60 H1). reflexivity.
Qed.

Lemma getColor_yellow_to_red (v : Q) :
  60 <= v -> v < 80 -> getColor v = rgba 255 (255 - (v - 60) * 12) 0 (7 # 10).
Proof.
  intros H0 H1. unfold getColor. positive_value v.
  skip_band v 10. skip_band v 30.
  rewrite (Qltb_false v 60 H0), (Qltb_true v 80 H1). reflexivity.
Qed.

Lemma getColor_solid_red (v : Q) : 80 <= v -> getColor v = rgba 255 0 0 (8 # 10).
Proof.
  intros H0. unfold getColor. positive_value v.
  skip_band v 10. skip_band v 30. skip_band v 60.
  rewrite (Qltb_false v 80 H0). reflexivity.
Qed.

(** C3: [getColor 0] is fully transparent; for [0 < v < 10] the colour is
    blue with alpha [v / 20], so 9.99 is blue; 10 is in the green-ramp band
    and in general every band contains its lower bound and excludes its
    upper bound; every [v >= 80] gives the same solid red, so 100 and 80
    have the same colour. *)
Theorem getColor_band_boundaries (v : Q) :
  getColor 0 = rgba 0 0 0 0 /\
  (0 < v -> v < 10 -> getColor v = rgba 0 0 255 (v / 20)) /\
  getColor (999 # 100) = rgba 0 0 255 ((999 # 100) / 20) /\
  getColor 10 = rgba 0 (255 - (10 - 10) * 8) 255 (5 # 10) /\
  (10 <= v -> v < 30 ->
   getColor v = rgba 0 (255 - (v - 10) * 8) 255 (5 # 10)) /\
  (30 <= v -> v < 60 ->
   getColor v = rgba ((v - 30) * 8) 255 (255 - (v - 30) * 8) (6 # 10)) /\
  (60 <= v -> v < 80 ->
   getColor v = rgba 255 (255 - (v - 60) * 12) 0 (7 # 10)) /\
  (80 <= v -> getColor v = rgba 255 0 0 (8 # 10)) /\
  getColor 100 = getColor 80.
Proof.
  split; [apply getColor_zero; reflexivity|].
  split; [apply getColor_blue|].
  split; [apply getColor_blue; reflexivity|].
  split; [apply getColor_green_ramp; [discriminate|reflexivity]|].
  split; [apply getColor_green_ramp|].
  split; [apply getColor_cyan_to_yellow|].
  split; [apply getColor_yellow_to_red|].
  split; [apply getColor_solid_red|].
  rewrite !getColor_solid_red by discriminate. reflexivity.
Qed.

(** The band facts at a value inside each band and at the boundaries. *)
Lemma getColor_band_boundaries_witness :
  getColor 5 = rgba 0 0 255 (5 / 20) /\
  getColor 20 = rgba 0 (255 - (20 - 10) * 8) 255 (5 # 10) /\
  getColor 30 = rgba ((30 - 30) * 8) 255 (255 - (30 - 30) * 8) (6 # 10) /\
  getColor 60 = rgba 255 (255 - (60 - 60) * 12) 0 (7 # 10) /\
  getColor 80 = rgba 255 0 0 (8 # 10).
Proof.
  split; [|split; [|split; [|split]]].
  - destruct (getColor_band_boundaries 5) as (_ & H & _).
    apply H; reflexivity.
  - destruct (getColor_band_boundaries 20) as (_ & _ & _ & _ & H & _).
    apply H; [discriminate|reflexivity].
  - destruct (getColor_band_boundaries 30) as (_ & _ & _ & _ & _ & H & _).
    apply H; [discriminate|reflexivity].
  - destruct (getColor_band_boundaries 60) as (_ & _ & _ & _ & _ & _ & H & _).
    apply H; [discriminate|reflexivity].
  - destruct (getColor_band_boundaries 80) as (_ & _ & _ & _ & _ & _ & _ & H & _).
    apply H; discriminate.
Defined.

(** The table's row for [30 <= v < 60] has the green channel ramp down.  In
    [getColor] the green channel of that band is the constant 255: at 30 and
    at 40 it is the same, so it does not decrease. *)
Lemma getColor_band3_green_does_not_ramp :
  green (getColor 30) = 255 /\ green (getColor 40) = 255 /\
  ~ (forall v w : Q, 30 <= v -> v < w -> w < 60 ->
       red (getColor v) < red (getColor w) /\
       green (getColor w) < green (getColor v) /\
       alpha (getColor v) == 6 # 10).
Proof.
  split; [reflexivity|]. split; [reflexivity|].
  intros H. destruct (H 30 40) as (_ & G & _); try reflexivity.
  - discriminate.
  - discriminate G.
Qed.

(** C4, amended: for [30 <= v < 60] the red channel is [(v - 30) * 8] and
    ramps up, the green channel is fixed at 255, the blue channel is
    [255 - (v - 30) * 8] and ramps down, and alpha is fixed at 0.6. *)
Theorem getColor_band3 (v w : Q) :
  30 <= v -> v < w -> w < 60 ->
  getColor v = rgba ((v - 30) * 8) 255 (255 - (v - 30) * 8) (6 # 10) /\
  red (getColor v) < red (getColor w) /\
  green (getColor v) = 255 /\ green (getColor w) = 255 /\
  blue (getColor w) < blue (getColor v) /\
  alpha (getColor v) = 6 # 10 /\ alpha (getColor w) = 6 # 10.
Proof.
  intros Hv Hvw Hw.
  assert (Hv' : v < 60) by (eapply Qlt_trans; eassumption).
  assert (Hw' : 30 <= w) by (apply Qlt_le_weak; eapply Qle_lt_trans; eassumption).
  rewrite (getColor_cyan_to_yellow v Hv Hv'), (getColor_cyan_to_yellow w Hw' Hw).
  cbn [red green blue alpha].
  repeat split; lra.
Qed.

Lemma getColor_band3_witness :
  red (getColor 30) < red (getColor 40) /\
  green (getColor 30) = 255 /\ green (getColor 40) = 255 /\
  blue (getColor 40) < blue (getColor 30).
Proof.
  destruct (getColor_band3 30 40) as (_ & R & G1 & G2 & B & _);
    [discriminate|reflexivity|reflexivity|].
  exact (conj R (conj G1 (conj G2 B))).
Defined.

End HeatmapFacts.

(** ** Catalog normalisation *)

Module CatalogFacts.

Import Catalog.
Local Open Scope string_scope.

(** *** Substrings *)

Lemma prefix_app_l (w s t : string) :
  prefix w s = true -> prefix w (s ++ t) = true.
Proof.
  revert w. induction s as [|c s IH]; intros w H.
  - destruct w; [|discriminate]. destruct t; reflexivity.
  - destruct w as [|c' w]; [reflexivity|]. cbn in *.
    destruct (ascii_dec c' c); [now apply IH|discriminate].
Qed.

Lemma includes_app_l (s t w : string) :
  includes s w = true -> includes (s ++ t) w = true.
Proof.
  induction s as [|c s IH]; cbn [includes append]; intros H.
  - rewrite orb_false_r in H. destruct w; [|discriminate].
    destruct t; reflexivity.
  - apply orb_true_iff in H. apply orb_true_iff. destruct H as [H|H].
    + left. exact (prefix_app_l w (String c s) t H).
    + right. now apply IH.
Qed.

Lemma includes_app_r (s t w : string) :
  includes t w = true -> includes (s ++ t) w = true.
Proof.
  intros H. induction s as [|c s IH]; [exact H|].
  cbn [includes append]. rewrite IH. apply orb_true_r.
Qed.

Lemma includes_Sensor_appended (s : string) :
  includes (s ++ " Sensor") "Sensor" = true.
Proof. apply includes_app_r. reflexivity. Qed.

(** *** One device *)

Lemma renamedAs_has_Sensor (legacy sensor : string) (d : Device) :
  includes (name (renamedAs legacy sensor d)) "Sensor" = true.
Proof.
  unfold renamedAs. cbn [name].
  destruct (includes (name d) "Sensor") eqn:E;
    [exact E|apply includes_Sensor_appended].
Qed.

Lemma renamedAs_keeps_word (legacy sensor w : string) (d : Device) :
  includes (name d) w = true ->
  includes (name (renamedAs legacy sensor d)) w = true.
Proof.
  intros H. unfold renamedAs. cbn [name].
  destruct (includes (name d) "Sensor"); [exact H|now apply includes_app_l].
Qed.

Lemma renamedAs_fixed (legacy sensor : string) (d : Device) :
  includes (name d) "Sensor" = true -> (device_type d =? legacy) = false ->
  renamedAs legacy sensor d = d.
Proof.
  intros Hn Ht. unfold renamedAs. rewrite Hn, Ht. now destruct d.
Qed.

(** A device whose name contains "Sensor" is a fixed point as soon as the
    branch that fires for it is not the one that rewrites its kind. *)
Lemma renameDevice_fixed (d : Device) :
  includes (name d) "Sensor" = true ->
  (device_type d =? "mouse") = false ->
  (device_type d =? "keyboard") = false \/ includes (name d) "Mouse" = true ->
  (device_type d =? "headset") = false \/ includes (name d) "Mouse" = true
    \/ includes (name d) "Keyboard" = true ->
  renameDevice d = d.
Proof.
  intros Hs Hm Hk Hh. unfold renameDevice. rewrite Hm. cbn [orb].
  destruct (includes (name d) "Mouse") eqn:EM;
    [now apply renamedAs_fixed|].
  destruct Hk as [Hk|Hk]; [|discriminate]. rewrite Hk. cbn [orb].
  destruct (includes (name d) "Keyboard") eqn:EK;
    [now apply renamedAs_fixed|].
  destruct Hh as [Hh|[Hh|Hh]]; try discriminate. rewrite Hh. cbn [orb].
  destruct (includes (name d) "Headset"); [now apply renamedAs_fixed|reflexivity].
Qed.

Lemma renameDevice_idempotent (d : Device) :
  renameDevice (renameDevice d) = renameDevice d.
Proof.
  unfold renameDevice at 2 3.
  destruct (device_type d =? "mouse") eqn:Tm; cbn [orb].
  { apply renameDevice_fixed; [apply renamedAs_has_Sensor|..];
      unfold renamedAs; cbn [device_type]; rewrite Tm; auto. }
  destruct (includes (name d) "Mouse") eqn:Nm.
  { apply renameDevice_fixed; [apply renamedAs_has_Sensor|..];
      try (unfold renamedAs; cbn [device_type]; rewrite Tm; exact Tm);
      [right|right; left]; now apply renamedAs_keeps_word. }
  destruct (device_type d =? "keyboard") eqn:Tk; cbn [orb].
  { apply renameDevice_fixed; [apply renamedAs_has_Sensor|..];
      unfold renamedAs; cbn [device_type]; rewrite Tk; auto. }
  destruct (includes (name d) "Keyboard") eqn:Nk.
  { apply renameDevice_fixed; [apply renamedAs_has_Sensor|..];
      try (unfold renamedAs; cbn [device_type]; rewrite Tk; auto; fail).
    right; right. now apply renamedAs_keeps_word. }
  destruct (device_type d =? "headset") eqn:Th; cbn [orb].
  { apply renameDevice_fixed; [apply renamedAs_has_Sensor|..];
      unfold renamedAs; cbn [device_type]; rewrite Th; auto. }
  destruct (includes (name d) "Headset") eqn:Nh.
  { apply renameDevice_fixed; [apply renamedAs_has_Sensor|..];
      unfold renamedAs; cbn [device_type]; rewrite Th; auto. }
  unfold renameDevice. rewrite Tm, Nm, Tk, Nk, Th, Nh. reflexivity.
Qed.

Lemma renameDevice_kind (d : Device) :
  device_type (renameDevice d) = device_type d \/
  device_type (renameDevice d) = "mouse_sensor" \/
  device_type (renameDevice d) = "keyboard_sensor" \/
  device_type (renameDevice d) = "headset_sensor".
Proof.
  unfold renameDevice.
  destruct (_ || _); [|destruct (_ || _); [|destruct (_ || _)]];
    unfold renamedAs; cbn [device_type]; try destruct (_ =? _); auto.
Qed.

Lemma renameDevice_recognized (d : Device) :
  isIoTDevice d = true -> isIoTDevice (renameDevice d) = true.
Proof.
  intros H. unfold isIoTDevice.
  destruct (renameDevice_kind d) as [E|[E|[E|E]]]; rewrite E;
    [exact H|reflexivity..].
Qed.

Lemma iotDevices_renamed (l : list Device) :
  iotDevices (map renameDevice (iotDevices l)) = map renameDevice (iotDevices l).
Proof.
  unfold iotDevices. induction l as [|d l IH]; [reflexivity|].
  cbn [filter]. destruct (isIoTDevice d) eqn:E; [|exact IH].
  cbn [map filter]. rewrite (renameDevice_recognized d E). now f_equal.
Qed.

(** C6: filtering and renaming the output of the filter-and-rename step
    gives that output back, unchanged. *)
Theorem renamedDevices_idempotent (devices : list Device) :
  renamedDevices (renamedDevices devices) = renamedDevices devices.
Proof.
  unfold renamedDevices. rewrite iotDevices_renamed, map_map.
  apply map_ext. apply renameDevice_idempotent.
Qed.

(** A device of a sensor-qualified kind whose name has none of the words
    "Mouse", "Keyboard", "Headset" passes the filter and is returned as it
    is: its name gets no " Sensor" suffix although it does not contain one. *)
Lemma plain_sensor_device_not_suffixed :
  let d := {| client_id := "s1"; name := "G502";
              device_type := "mouse_sensor"; status := Some "active" |} in
  In d (iotDevices [d]) /\
  includes (name d) " Sensor" = false /\
  includes (name d) "Sensor" = false /\
  renamedDevices [d] = [d] /\
  name (renameDevice d) <> name d ++ " Sensor".
Proof.
  cbv zeta. split; [left; reflexivity|].
  repeat split; try reflexivity. discriminate.
Qed.

(** The first branch also fires on the name alone and then returns without
    trying the later ones: a bare "keyboard" named after a mouse keeps its
    bare kind. *)
Example renameDevice_keyboard_named_Mouse :
  renameDevice {| client_id := "k1"; name := "Mouse Keyboard";
                  device_type := "keyboard"; status := None |} =
  {| client_id := "k1"; name := "Mouse Keyboard Sensor";
     device_type := "keyboard"; status := None |}.
Proof. reflexivity. Qed.

Ltac kind_is H := rewrite H; cbn [String.eqb Ascii.eqb Bool.eqb orb].

(** C5, amended: a device of the filtered list is renamed when its kind is
    bare or its name contains "Mouse", "Keyboard" or "Headset": its name gets
    " Sensor" appended unless it already contains "Sensor"; any other device
    is returned as it is.  A bare "mouse" becomes "mouse_sensor"; a bare
    "keyboard" becomes "keyboard_sensor" when the name does not contain
    "Mouse"; a bare "headset" becomes "headset_sensor" when the name
    contains neither "Mouse" nor "Keyboard"; a sensor-qualified kind is
    kept.  Identifier and status are kept.  The raw device m1 / "mouse" /
    "Mouse" becomes "mouse_sensor" / "Mouse Sensor". *)
Theorem renameDevice_of_recognized (devices : list Device) (d : Device) :
  In d (iotDevices devices) ->
  In (renameDevice d) (renamedDevices devices) /\
  client_id (renameDevice d) = client_id d /\
  status (renameDevice d) = status d /\
  (device_type d = "mouse" \/ device_type d = "keyboard" \/
   device_type d = "headset" \/ includes (name d) "Mouse" = true \/
   includes (name d) "Keyboard" = true \/ includes (name d) "Headset" = true ->
   name (renameDevice d) =
     if includes (name d) "Sensor" then name d else name d ++ " Sensor") /\
  (device_type d <> "mouse" -> device_type d <> "keyboard" ->
   device_type d <> "headset" -> includes (name d) "Mouse" = false ->
   includes (name d) "Keyboard" = false -> includes (name d) "Headset" = false ->
   renameDevice d = d) /\
  (device_type d = "mouse" -> device_type (renameDevice d) = "mouse_sensor") /\
  (device_type d = "keyboard" -> includes (name d) "Mouse" = false ->
   device_type (renameDevice d) = "keyboard_sensor") /\
  (device_type d = "headset" -> includes (name d) "Mouse" = false ->
   includes (name d) "Keyboard" = false ->
   device_type (renameDevice d) = "headset_sensor") /\
  (device_type d = "mouse_sensor" \/ device_type d = "keyboard_sensor" \/
   device_type d = "headset_sensor" ->
   device_type (renameDevice d) = device_type d) /\
  renamedDevices [ {| client_id := "m1"; name := "Mouse";
                      device_type := "mouse"; status := None |} ] =
    [ {| client_id := "m1"; name := "Mouse Sensor";
         device_type := "mouse_sensor"; status := None |} ].
Proof.
  intros Hin.
  split; [unfold renamedDevices; now apply in_map|].
  split.
  { unfold renameDevice. now repeat destruct (_ || _). }
  split.
  { unfold renameDevice. now repeat destruct (_ || _). }
  split.
  { intros H. unfold renameDevice.
    destruct ((device_type d =? "mouse") || includes (name d) "Mouse")
      eqn:C1; [reflexivity|].
    destruct ((device_type d =? "keyboard") || includes (name d) "Keyboard")
      eqn:C2; [reflexivity|].
    destruct ((device_type d =? "headset") || includes (name d) "Headset")
      eqn:C3; [reflexivity|].
    apply orb_false_iff in C1, C2, C3.
    destruct C1 as [T1 N1], C2 as [T2 N2], C3 as [T3 N3].
    apply String.eqb_neq in T1, T2, T3.
    destruct H as [H|[H|[H|[H|[H|H]]]]]; congruence. }
  split.
  { intros T1 T2 T3 N1 N2 N3. unfold renameDevice.
    apply String.eqb_neq in T1, T2, T3.
    now rewrite T1, T2, T3, N1, N2, N3. }
  split.
  { intros T. unfold renameDevice, renamedAs. now kind_is T. }
  split.
  { intros T N. unfold renameDevice, renamedAs. kind_is T. now rewrite N. }
  split.
  { intros T N1 N2. unfold renameDevice, renamedAs. kind_is T.
    now rewrite N1, N2. }
  split; [|reflexivity].
  intros T. unfold renameDevice, renamedAs.
  destruct T as [T|[T|T]]; kind_is T; now repeat destruct (includes _ _).
Qed.

Lemma renameDevice_of_recognized_witness :
  let m1 := {| client_id := "m1"; name := "Mouse";
               device_type := "mouse"; status := None |} in
  In m1 (iotDevices [m1]) /\
  In (renameDevice m1) (renamedDevices [m1]) /\
  name (renameDevice m1) = "Mouse Sensor" /\
  device_type (renameDevice m1) = "mouse_sensor".
Proof.
  cbv zeta.
  assert (Hin : In {| client_id := "m1"; name := "Mouse";
                      device_type := "mouse"; status := None |}
                   (iotDevices [ {| client_id := "m1"; name := "Mouse";
                                    device_type := "mouse"; status := None |} ]))
    by (left; reflexivity).
  destruct (renameDevice_of_recognized _ _ Hin) as (H1 & _ & _ & H2 & _ & H3 & _).
  split; [exact Hin|]. split; [exact H1|].
  split; [exact (H2 (or_introl eq_refl))|exact (H3 eq_refl)].
Defined.

End CatalogFacts.

(** ** Attack status *)

Module StatusFacts.

Import Dashboard.
Local Open Scope string_scope.
Local Open Scope Z_scope.

(** The quotient by 1000 is below 60 exactly when the difference in
    milliseconds is below 60000. *)
Lemma lessThan_timeDiff_60 (now t : Z) :
  lessThan (timeDiff now (Some t)) 60 = true <-> now - t < 60000.
Proof.
  cbn [timeDiff lessThan]. rewrite Qltb_lt.
  unfold Qlt, Qdiv, Qmult, Qinv, inject_Z. cbn. lia.
Qed.

Lemma recentCritical_iff (now : Z) (alert : Alert) :
  recentCritical now alert = true <->
  severity alert = "critical" /\
  exists t, newDate (timestamp alert) = Some t /\ now - t < 60000.
Proof.
  unfold recentCritical. rewrite andb_true_iff, String.eqb_eq.
  destruct (newDate (timestamp alert)) as [t|].
  - rewrite lessThan_timeDiff_60. split.
    + intros [S L]. split; [exact S|]. exists t. now split.
    + intros [S (t' & E & L)]. injection E as <-. now split.
  - cbn [timeDiff lessThan]. split.
    + intros [_ F]. discriminate.
    + intros [_ (t' & E & _)]. discriminate.
Qed.

(** With a clock that may advance between two reads: the alert at index [i]
    is judged against the reading taken for it. *)
Lemma someRecentCritical_iff (clock : nat -> Z) (alerts : list Alert) (k : nat) :
  someRecentCritical clock k alerts = true <->
  exists i alert, nth_error alerts i = Some alert /\
                  recentCritical (clock (k + i)%nat) alert = true.
Proof.
  revert k. induction alerts as [|a rest IH]; intros k; cbn [someRecentCritical].
  - split; [discriminate|]. intros (i & alert & E & _). now destruct i.
  - rewrite orb_true_iff, IH. split.
    + intros [H|(i & alert & E & H)].
      * exists 0%nat, a. rewrite Nat.add_0_r. now split.
      * exists (S i), alert. rewrite Nat.add_succ_r. now split.
    + intros (i & alert & E & H). destruct i as [|i].
      * left. injection E as <-. now rewrite Nat.add_0_r in H.
      * right. exists i, alert. rewrite Nat.add_succ_r in H. now split.
Qed.

Lemma someRecentCritical_at (now : Z) (alerts : list Alert) (k : nat) :
  someRecentCritical (fun _ => now) k alerts = true <->
  exists alert, In alert alerts /\ recentCritical now alert = true.
Proof.
  rewrite someRecentCritical_iff. split.
  - intros (i & alert & E & H). exists alert. split; [|exact H].
    eapply nth_error_In; eassumption.
  - intros (alert & I & H). apply In_nth_error in I. destruct I as [i E].
    now exists i, alert.
Qed.

Lemma getMostRecentData_empty (s : State) :
  deviceData s = [] -> getMostRecentData s = None.
Proof. unfold getMostRecentData. now intros ->. Qed.

Lemma getMostRecentData_last (s : State) (earlier : list Sample) (x : Sample) :
  deviceData s = (earlier ++ [x])%list -> getMostRecentData s = Some x.
Proof.
  unfold getMostRecentData. intros ->.
  rewrite length_app, Nat.add_comm. cbn [List.length Nat.add Nat.eqb].
  replace (S (List.length earlier) - 1)%nat with (List.length earlier)
    by (cbn; now rewrite Nat.sub_0_r).
  rewrite nth_error_app2, Nat.sub_diag by apply Nat.le_refl.
  reflexivity.
Qed.

Lemma under_attack_iff (s : State) :
  under_attack (getDeviceStatus s) = true <->
  exists recent st, getMostRecentData s = Some recent /\
                    status recent = Some st /\ under_attack st = true.
Proof.
  unfold getDeviceStatus. destruct (getMostRecentData s) as [recent|].
  - destruct (status recent) as [st|] eqn:E.
    + split.
      * intros H. now exists recent, st.
      * intros (r & st' & R & S & H). injection R as <-. congruence.
    + cbn. split; [discriminate|].
      intros (r & st' & R & S & H). injection R as <-. congruence.
  - cbn. split; [discriminate|]. intros (r & st' & R & _). discriminate.
Qed.

(** C1: rendered at the instant [now], the device is shown under attack
    exactly when its latest sample reports [under_attack], or some alert is
    "critical" and less than 60 seconds old.  The latest sample is the last
    element of the telemetry list; with no sample the flag counts as false.
    A critical alert aged exactly 60.000 s does not count; one aged
    59.999 s does. *)
Theorem isAttacked_iff (s : State) (now t : Z) (earlier : list Sample)
    (x : Sample) (event : string) (info : list (string * Detail)) :
  (isAttacked (fun _ => now) s = true <->
   (exists recent st, getMostRecentData s = Some recent /\
                      status recent = Some st /\ under_attack st = true) \/
   (exists alert at_ms, In alert (securityAlerts s) /\
                        severity alert = "critical" /\
                        newDate (timestamp alert) = Some at_ms /\
                        now - at_ms < 60 * 1000)) /\
  getMostRecentData (setDeviceData (earlier ++ [x])%list s) = Some x /\
  getMostRecentData (setDeviceData [] s) = None /\
  under_attack (getDeviceStatus (setDeviceData [] s)) = false /\
  isAttacked (fun _ => t + 60000)
    (setSecurityAlerts [ {| timestamp := IsoTime t; event_type := event;
                            details := info; severity := "critical" |} ]
       (setDeviceData [] s)) = false /\
  isAttacked (fun _ => t + 59999)
    (setSecurityAlerts [ {| timestamp := IsoTime t; event_type := event;
                            details := info; severity := "critical" |} ]
       (setDeviceData [] s)) = true.
Proof.
  split.
  { unfold isAttacked, hasRecentCriticalAlert.
    rewrite orb_true_iff, under_attack_iff, someRecentCritical_at.
    apply or_iff_compat_l. split.
    - intros (alert & I & H). apply recentCritical_iff in H.
      destruct H as [S (at_ms & E & L)]. now exists alert, at_ms.
    - intros (alert & at_ms & I & S & E & L). exists alert. split; [exact I|].
      apply recentCritical_iff. split; [exact S|]. now exists at_ms. }
  split; [now apply getMostRecentData_last with (earlier := earlier)|].
  split; [reflexivity|]. split; [reflexivity|].
  unfold isAttacked, hasRecentCriticalAlert. cbn [getDeviceStatus
    getMostRecentData setDeviceData setSecurityAlerts deviceData securityAlerts
    List.length Nat.eqb under_attack orb someRecentCritical].
  rewrite !orb_false_r. split.
  - destruct (recentCritical (t + 60000) _) eqn:E; [|reflexivity].
    apply recentCritical_iff in E. destruct E as [_ (at_ms & E & L)].
    cbn in E. injection E as <-. lia.
  - apply recentCritical_iff. split; [reflexivity|].
    exists t. split; [reflexivity|lia].
Qed.

Lemma isAttacked_iff_witness :
  isAttacked (fun _ => 70000)
    (setSecurityAlerts [ {| timestamp := IsoTime 60000;
                            event_type := "attack_detected"; details := [];
                            severity := "critical" |} ] initialState) = true.
Proof.
  apply (proj1 (isAttacked_iff _ 70000 0 [] (fallbackSample "m1" 0) "" [])).
  right. eexists. exists 60000. split; [left; reflexivity|].
  split; [reflexivity|]. split; [reflexivity|reflexivity].
Defined.

End StatusFacts.

(** ** Fetches and the selection *)

Module PageFacts.

Import Dashboard.
Local Open Scope string_scope.
Local Open Scope Z_scope.

(** *** What a settled fetch writes *)

Lemma fetchDeviceData_deviceData (deviceId : string) (now : Z)
    (outcome : Settled DeviceDataResult) (s : State) :
  deviceData (fetchDeviceData deviceId now outcome s) =
  match outcome with
  | Resolved (Some result) => orEmpty (data result)
  | _ => [fallbackSample deviceId now]
  end.
Proof. now destruct outcome as [|[result|]]. Qed.


Lemma fetchDeviceData_frame (deviceId : string) (now : Z)
    (outcome : Settled DeviceDataResult) (s : State) :
  let s' := fetchDeviceData deviceId now outcome s in
  devices s' = devices s /\ selectedDevice s' = selectedDevice s /\
  securityAlerts s' = securityAlerts s /\ loading s' = loading s /\
  error s' = error s /\ refreshInterval s' = refreshInterval s /\
  isRefreshing s' = isRefreshing s.
Proof. now destruct outcome as [|[result|]]. Qed.

Lemma fetchSecurityAlerts_frame (deviceId : string) (now : Z)
    (outcome : Settled SecurityAlertsResult) (s : State) :
  let s' := fetchSecurityAlerts deviceId now outcome s in
  devices s' = devices s /\ selectedDevice s' = selectedDevice s /\
  deviceData s' = deviceData s /\ loading s' = loading s /\
  error s' = error s /\ refreshInterval s' = refreshInterval s /\
  isRefreshing s' = isRefreshing s.
Proof. now destruct outcome as [|[result|]]. Qed.

(** *** Responses that arrive after the selection has changed *)



(** *** Successive polls *)

(** Two successful polls of one device, answering [a] and then [b]: after
    the second the telemetry list is [b] alone, not [a] followed by [b]. *)
Lemma second_poll_replaces_first :
  let a := fallbackSample "m1" 1000 in
  let b := fallbackSample "m1" 6000 in
  let s1 := fetchDeviceData "m1" 1000
              (Resolved (Some {| data := Some [a] |})) initialState in
  let s2 := fetchDeviceData "m1" 6000
              (Resolved (Some {| data := Some [b] |})) s1 in
  deviceData s1 = [a] /\ deviceData s2 = [b] /\
  deviceData s2 <> (deviceData s1 ++ [b])%list /\ ~ In a (deviceData s2).
Proof.
  cbv zeta. split; [reflexivity|]. split; [reflexivity|].
  split; [discriminate|]. cbn. intros [H|[]]. discriminate H.
Qed.

(** The telemetry list after a series of successful polls, each settling at
    its own instant with its own body. *)
Lemma polls_fold (deviceId : string) (polls : list (Z * DeviceDataResult))
    (now : Z) (result : DeviceDataResult) (s : State) :
  fold_left (fun st p => fetchDeviceData deviceId (fst p)
                           (Resolved (Some (snd p))) st)
    (polls ++ [(now, result)])%list s
  = fetchDeviceData deviceId now (Resolved (Some result))
      (fold_left (fun st p => fetchDeviceData deviceId (fst p)
                                (Resolved (Some (snd p))) st) polls s).
Proof. now rewrite fold_left_app. Qed.

(** C8, amended: after every successful poll the telemetry list is exactly
    the [data] array of that poll's response, in the order received (empty
    when [data] is absent); what earlier polls delivered is replaced, not
    kept. *)
Theorem deviceData_is_last_response (deviceId : string)
    (polls : list (Z * DeviceDataResult)) (now : Z)
    (result : DeviceDataResult) (s : State) :
  deviceData
    (fold_left (fun st p => fetchDeviceData deviceId (fst p)
                              (Resolved (Some (snd p))) st)
       (polls ++ [(now, result)])%list s)
  = orEmpty (data result).
Proof. rewrite polls_fold. apply fetchDeviceData_deviceData. Qed.

(** *** Failed fetches *)

(** C9: when the telemetry fetch fails (the awaited call rejects: no reply,
    a status that is not a success, a malformed body; or what it resolves
    to cannot be read), nothing is thrown further: the telemetry
    list becomes exactly one synthesized sample, whose status has
    [under_attack] false and [attack_duration] 0, and the rest of the state
    is untouched. *)
Theorem fetchDeviceData_failure (deviceId : string) (now : Z) (s : State)
    (ok : bool) (body : option DeviceDataResult) :
  fetchDeviceData deviceId now (Resolved None) s
    = fetchDeviceData deviceId now Rejected s /\
  fetchDeviceData deviceId now (awaited NoReply) s
    = fetchDeviceData deviceId now Rejected s /\
  fetchDeviceData deviceId now (awaited (Replied false body)) s
    = fetchDeviceData deviceId now Rejected s /\
  fetchDeviceData deviceId now (awaited (Replied ok None)) s
    = fetchDeviceData deviceId now Rejected s /\
  let s' := fetchDeviceData deviceId now Rejected s in
  deviceData s' = [fallbackSample deviceId now] /\
  List.length (deviceData s') = 1%nat /\
  (exists st, status (fallbackSample deviceId now) = Some st /\
              under_attack st = false /\ attack_duration st = Some 0%Q) /\
  device_id (fallbackSample deviceId now) = deviceId /\
  devices s' = devices s /\ selectedDevice s' = selectedDevice s /\
  securityAlerts s' = securityAlerts s /\ loading s' = loading s /\
  error s' = error s /\ refreshInterval s' = refreshInterval s /\
  isRefreshing s' = isRefreshing s.
Proof.
  cbv zeta. repeat split; try reflexivity.
  - now destruct ok.
  - eexists. repeat split; reflexivity.
Qed.

(** C10: when the telemetry fetch and the alert fetch of one cycle both
    fail, in either order, a render less than 60 seconds after the alert
    failure shows the device under attack with duration 0, although the
    fallback sample reports [under_attack] false: the fallback alert is
    "critical" and stamped with the instant of the failure. *)
Theorem both_fallbacks_under_attack (deviceId : string) (t_data t_alerts now : Z)
    (s : State) :
  now - t_alerts < 60000 ->
  let s1 := fetchSecurityAlerts deviceId t_alerts Rejected
              (fetchDeviceData deviceId t_data Rejected s) in
  let s2 := fetchDeviceData deviceId t_data Rejected
              (fetchSecurityAlerts deviceId t_alerts Rejected s) in
  renderedAt now s1 = (true, 0%Q) /\ renderedAt now s2 = (true, 0%Q) /\
  under_attack (getDeviceStatus s1) = false /\
  securityAlerts s1 = [fallbackAlert t_alerts] /\
  severity (fallbackAlert t_alerts) = "critical" /\
  newDate (timestamp (fallbackAlert t_alerts)) = Some t_alerts.
Proof.
  intros Hrecent. cbv zeta.
  assert (R : recentCritical now (fallbackAlert t_alerts) = true).
  { apply StatusFacts.recentCritical_iff. split; [reflexivity|].
    exists t_alerts. now split. }
  repeat split; unfold renderedAt, isAttacked, hasRecentCriticalAlert;
    cbn [fetchSecurityAlerts fetchDeviceData setSecurityAlerts setDeviceData
         securityAlerts someRecentCritical]; now rewrite R.
Qed.

Lemma both_fallbacks_under_attack_witness :
  renderedAt 1000
    (fetchSecurityAlerts "m1" 1000 Rejected
       (fetchDeviceData "m1" 1000 Rejected initialState)) = (true, 0%Q).
Proof.
  refine (proj1 (both_fallbacks_under_attack "m1" 1000 1000 1000 initialState _)).
  reflexivity.
Defined.

(** *** The selection across catalog refreshes *)

(** The user has selected k1; the next refresh lists only m1, and a later
    one lists nothing.  Both times the selection stays on k1: it neither
    moves to the first listed device nor becomes empty. *)
Lemma vanished_selection_is_kept :
  let m1 := {| Catalog.client_id := "m1"; Catalog.name := "Mouse";
               Catalog.device_type := "mouse"; Catalog.status := None |} in
  let k1 := {| Catalog.client_id := "k1"; Catalog.name := "Keyboard";
               Catalog.device_type := "keyboard"; Catalog.status := None |} in
  exists w w',
    run mounted [ DevicesSettled None (Some [m1; k1]); SelectChanged "k1";
                  DevicesSettled (Some "k1") (Some [m1]) ] = Some w /\
    devices (ui w) = [Catalog.renameDevice m1] /\
    ~ In "k1" (map Catalog.client_id (devices (ui w))) /\
    selectedDevice (ui w) = Some "k1" /\
    selectedDevice (ui w) <> Catalog.firstClientId (devices (ui w)) /\
    run w [ DevicesTimer; DevicesSettled (Some "k1") (Some []) ] = Some w' /\
    devices (ui w') = [] /\
    selectedDevice (ui w') = Some "k1" /\
    truthy (selectedDevice (ui w')) = true.
Proof.
  cbv zeta. eexists. eexists.
  split; [vm_compute; reflexivity|].
  split; [reflexivity|].
  split; [cbn; intros [H|[]]; discriminate H|].
  split; [reflexivity|]. split; [discriminate|].
  split; [vm_compute; reflexivity|].
  repeat split; reflexivity.
Qed.

(** A refresh can arrive after the selection has changed.  Asked for while
    the placeholder entry was selected, it arrives with k1 selected and
    moves the selection to m1; asked for while k1 was selected, it arrives
    with the placeholder selected and leaves the selection empty although
    the catalog has devices. *)
Example late_refresh_runs :
  let m1 := {| Catalog.client_id := "m1"; Catalog.name := "Mouse";
               Catalog.device_type := "mouse"; Catalog.status := None |} in
  let k1 := {| Catalog.client_id := "k1"; Catalog.name := "Keyboard";
               Catalog.device_type := "keyboard"; Catalog.status := None |} in
  (exists w,
     run mounted [ DevicesSettled None (Some [m1; k1]); SelectChanged "";
                   SelectChanged "k1";
                   DevicesSettled (Some "") (Some [m1; k1]) ] = Some w /\
     selectedDevice (ui w) = Some "m1") /\
  (exists w,
     run mounted [ DevicesSettled None (Some [m1; k1]); SelectChanged "k1";
                   SelectChanged "";
                   DevicesSettled (Some "k1") (Some [m1; k1]) ] = Some w /\
     selectedDevice (ui w) = Some "" /\
     List.length (devices (ui w)) = 2%nat).
Proof.
  cbv zeta. split; eexists; (split; [vm_compute; reflexivity|]);
    repeat split; reflexivity.
Qed.

(** C7, amended: a catalog refresh installs the renamed list (the fallback
    list when the request failed) and decides on the selection that was in
    force when its request was sent, [selected].  If no device was selected
    then ([null] or the empty string) and the installed list is not empty,
    the selection becomes its first device, in the returned order, whatever
    is selected when the response arrives.  If a device was selected then,
    the selection is left as it is, whether or not the list still has that
    id; and an empty list changes nothing.  When the selection has not
    changed while the request was in flight, "was selected then" is "is
    selected now". *)
Theorem fetchDevices_selection (s : State) (selected : option string)
    (response : option (list Catalog.Device)) :
  let s' := fetchDevices selected response s in
  devices s' = match response with
               | Some listed => Catalog.renamedDevices listed
               | None => Catalog.fallbackDevices
               end /\
  (truthy selected = false ->
   forall first rest, devices s' = first :: rest ->
   selectedDevice s' = Some (Catalog.client_id first)) /\
  (truthy selected = true -> selectedDevice s' = selectedDevice s) /\
  (devices s' = [] -> selectedDevice s' = selectedDevice s) /\
  (selected = selectedDevice s ->
   (truthy (selectedDevice s) = false ->
    forall first rest, devices s' = first :: rest ->
    selectedDevice s' = Some (Catalog.client_id first)) /\
   (truthy (selectedDevice s) = true ->
    selectedDevice s' = selectedDevice s)).
Proof.
  cbv zeta.
  assert (G :
    devices (fetchDevices selected response s)
      = match response with
        | Some listed => Catalog.renamedDevices listed
        | None => Catalog.fallbackDevices
        end /\
    (truthy selected = false ->
     forall first rest,
       devices (fetchDevices selected response s) = first :: rest ->
       selectedDevice (fetchDevices selected response s)
       = Some (Catalog.client_id first)) /\
    (truthy selected = true ->
     selectedDevice (fetchDevices selected response s) = selectedDevice s) /\
    (devices (fetchDevices selected response s) = [] ->
     selectedDevice (fetchDevices selected response s) = selectedDevice s)).
  { unfold fetchDevices. destruct response as [listed|].
    - destruct (Catalog.renamedDevices listed) as [|d l] eqn:E;
        destruct (truthy selected) eqn:T; cbn;
        repeat split; try reflexivity; try discriminate.
      intros _ first rest H. now injection H as <- _.
    - destruct (truthy selected) eqn:T; cbn;
        repeat split; try reflexivity; try discriminate.
      intros _ first rest H. now injection H as <- _. }
  destruct G as (G1 & G2 & G3 & G4).
  split; [exact G1|]. split; [exact G2|]. split; [exact G3|].
  split; [exact G4|].
  intros E. split; intros T.
  - apply G2. now rewrite E.
  - apply G3. now rewrite E.
Qed.

Lemma fetchDevices_selection_witness :
  let m1 := {| Catalog.client_id := "m1"; Catalog.name := "Mouse";
               Catalog.device_type := "mouse"; Catalog.status := None |} in
  selectedDevice (fetchDevices None (Some [m1]) initialState) = Some "m1" /\
  selectedDevice
    (fetchDevices (Some "k1") (Some [m1])
       (setSelectedDevice (Some "k1") initialState)) = Some "k1" /\
  selectedDevice
    (fetchDevices (Some "k1") (Some [])
       (setSelectedDevice (Some "k1") initialState)) = Some "k1" /\
  selectedDevice
    (fetchDevices (Some "") (Some [m1])
       (setSelectedDevice (Some "k1") initialState)) = Some "m1" /\
  selectedDevice
    (fetchDevices (Some "k1") (Some [m1])
       (setSelectedDevice (Some "") initialState)) = Some "".
Proof.
  cbv zeta. split; [|split; [|split; [|split]]].
  - destruct (fetchDevices_selection initialState None
                (Some [ {| Catalog.client_id := "m1"; Catalog.name := "Mouse";
                           Catalog.device_type := "mouse";
                           Catalog.status := None |} ]))
      as (_ & _ & _ & _ & H).
    exact (proj1 (H eq_refl) eq_refl _ _ eq_refl).
  - destruct (fetchDevices_selection
                (setSelectedDevice (Some "k1") initialState) (Some "k1")
                (Some [ {| Catalog.client_id := "m1"; Catalog.name := "Mouse";
                           Catalog.device_type := "mouse";
                           Catalog.status := None |} ]))
      as (_ & _ & _ & _ & H).
    exact (proj2 (H eq_refl) eq_refl).
  - destruct (fetchDevices_selection
                (setSelectedDevice (Some "k1") initialState) (Some "k1")
                (Some []))
      as (_ & _ & _ & H & _).
    exact (H eq_refl).
  - destruct (fetchDevices_selection
                (setSelectedDevice (Some "k1") initialState) (Some "")
                (Some [ {| Catalog.client_id := "m1"; Catalog.name := "Mouse";
                           Catalog.device_type := "mouse";
                           Catalog.status := None |} ]))
      as (_ & H & _).
    exact (H eq_refl _ _ eq_refl).
  - destruct (fetchDevices_selection
                (setSelectedDevice (Some "") initialState) (Some "k1")
                (Some [ {| Catalog.client_id := "m1"; Catalog.name := "Mouse";
                           Catalog.device_type := "mouse";
                           Catalog.status := None |} ]))
      as (_ & _ & H & _).
    exact (H eq_refl).
Defined.

End PageFacts.

(** ** The colour scale as a whole *)

Module ColourFacts.

Import Heatmap HeatmapFacts.
Local Open Scope Q_scope.

(** Splits on the band of a non-negative [v] and rewrites [getColor v]. *)
Ltac in_band v H0 :=
  destruct (Qle_lt_or_eq _ _ H0);
  [ destruct (Qlt_le_dec v 10);
    [ rewrite (getColor_blue v) by assumption
    | destruct (Qlt_le_dec v 30);
      [ rewrite (getColor_green_ramp v) by assumption
      | destruct (Qlt_le_dec v 60);
        [ rewrite (getColor_cyan_to_yellow v) by assumption
        | destruct (Qlt_le_dec v 80);
          [ rewrite (getColor_yellow_to_red v) by assumption
          | rewrite (getColor_solid_red v) by assumption ] ] ] ]
  | rewrite (getColor_zero v) by (symmetry; assumption) ].

(** [v / 20] as a product, for linear arithmetic. *)
Ltac twentieth := unfold Qdiv; change (/ 20) with (1 # 20).

(** For every value that is not negative the result is a well-formed CSS
    colour: the three channels lie between 0 and 255 and alpha between 0
    and 0.8. *)
Theorem getColor_in_range (v : Q) :
  0 <= v ->
  0 <= red (getColor v) <= 255 /\ 0 <= green (getColor v) <= 255 /\
  0 <= blue (getColor v) <= 255 /\ 0 <= alpha (getColor v) <= 8 # 10.
Proof.
  intros H0. in_band v H0; cbn [red green blue alpha]; twentieth;
    repeat split; lra.
Qed.

Lemma getColor_in_range_witness :
  0 <= green (getColor 29) <= 255 /\ 0 <= alpha (getColor 29) <= 8 # 10.
Proof.
  destruct (getColor_in_range 29) as (_ & G & _ & A); [discriminate|].
  exact (conj G A).
Defined.

(** A larger value is never drawn more transparent: alpha does not decrease
    as the value grows from 0. *)
Theorem getColor_alpha_monotone (v w : Q) :
  0 <= v -> v <= w -> alpha (getColor v) <= alpha (getColor w).
Proof.
  intros H0 Hvw.
  assert (H0' : 0 <= w) by lra.
  in_band v H0; in_band w H0'; cbn [alpha]; twentieth; lra.
Qed.

Lemma getColor_alpha_monotone_witness :
  alpha (getColor 9) <= alpha (getColor 10) /\
  alpha (getColor 59) <= alpha (getColor 60).
Proof.
  split; apply getColor_alpha_monotone; discriminate.
Defined.

(** A negative value is not rejected or clamped: it takes the [value < 10]
    branch and gives blue with alpha [value / 20], which is never positive.
    (The exact quotient is negative; rounded to a double it can be the
    negative zero, so only "not positive" is stated.) *)
Theorem getColor_negative (v : Q) :
  v < 0 -> getColor v = rgba 0 0 255 (v / 20) /\ alpha (getColor v) <= 0.
Proof.
  intros H. unfold getColor.
  rewrite Qeq_bool_false by (intros E; rewrite E in H; discriminate H).
  rewrite Qltb_true by lra. cbn [alpha]. split; [reflexivity|].
  twentieth. lra.
Qed.

Lemma getColor_negative_witness :
  getColor (-5) = rgba 0 0 255 (-5 / 20) /\ alpha (getColor (-5)) <= 0.
Proof. apply getColor_negative. reflexivity. Defined.

End ColourFacts.

(** ** Placement of the heatmap cells *)

Module GridFacts.

Import HeatmapGrid.

Lemma mapIndexed_nth_error {A B : Type} (f : A -> nat -> B) (l : list A)
    (k i : nat) :
  nth_error (mapIndexed f k l) i
  = option_map (fun value => f value (k + i)%nat) (nth_error l i).
Proof.
  revert k i. induction l as [|a l IH]; intros k i.
  - now destruct i.
  - destruct i as [|i]; cbn [mapIndexed nth_error option_map].
    + now rewrite Nat.add_0_r.
    + rewrite IH. now rewrite Nat.add_succ_r.
Qed.

Lemma mapIndexed_as_map {A B : Type} (f : A -> nat -> B) (l : list A) (k : nat) :
  mapIndexed f k l
  = map (fun p => f (fst p) (snd p)) (combine l (seq k (List.length l))).
Proof.
  revert k. induction l as [|a l IH]; intros k; [reflexivity|].
  cbn [mapIndexed List.length seq combine map fst snd]. now rewrite IH.
Qed.

(** In a grid whose rows all have [w] values, the value at column [x] of row
    [y] is the one at [y * w + x] of the flattened grid. *)
Lemma concat_rows_nth_error (w : nat) (grid : list (list Q)) (y x : nat)
    (row : list Q) :
  Forall (fun r => List.length r = w) grid ->
  nth_error grid y = Some row -> (x < w)%nat ->
  nth_error (List.concat grid) (y * w + x) = nth_error row x.
Proof.
  intros Hrows. revert y. induction Hrows as [|r grid Hr Hrows IH]; intros y Hy Hx.
  - now destruct y.
  - destruct y as [|y]; cbn [nth_error List.concat] in *.
    + injection Hy as ->. cbn. apply nth_error_app1. now rewrite Hr.
    + rewrite nth_error_app2 by (rewrite Hr; cbn; lia).
      rewrite Hr. replace (S y * w + x - w)%nat with (y * w + x)%nat by (cbn; lia).
      now apply IH.
Qed.

Lemma concat_rows_length (w : nat) (grid : list (list Q)) :
  Forall (fun r => List.length r = w) grid ->
  List.length (List.concat grid) = (List.length grid * w)%nat.
Proof.
  induction 1 as [|r grid Hr Hrows IH]; [reflexivity|].
  cbn [List.concat List.length]. rewrite length_app, Hr, IH. cbn. lia.
Qed.

(** When every row of the grid on display has [resolution.width] values,
    the value at column [x] of row [y] is drawn with its colour at grid
    column [x + 1], grid row [y + 1], under the key of [x] and [y]; and
    there are rows times width cells. *)
Theorem cells_placement (heatmapType : HeatmapType) (heatmapData : HeatmapData)
    (x y : nat) (row : list Q) (value : Q) :
  Forall (fun r => List.length r = width heatmapData)
    (currentHeatmap heatmapType heatmapData) ->
  nth_error (currentHeatmap heatmapType heatmapData) y = Some row ->
  nth_error row x = Some value ->
  nth_error (cells heatmapType heatmapData) (y * width heatmapData + x)
  = Some {| key := (Finite x, Finite y);
            backgroundColor := Heatmap.getColor value;
            gridColumn := Finite (S x);
            gridRow := Finite (S y) |} /\
  List.length (cells heatmapType heatmapData)
  = (List.length (currentHeatmap heatmapType heatmapData) * width heatmapData)%nat.
Proof.
  intros Hrows Hy Hx.
  assert (Hlen : List.length row = width heatmapData).
  { rewrite Forall_forall in Hrows. apply Hrows.
    eapply nth_error_In; eassumption. }
  assert (Hxw : (x < width heatmapData)%nat).
  { rewrite <- Hlen. apply nth_error_Some. congruence. }
  split.
  - unfold cells. rewrite mapIndexed_nth_error.
    rewrite (concat_rows_nth_error _ _ _ _ _ Hrows Hy Hxw), Hx.
    cbn [option_map Nat.add]. unfold cell, remainder, quotient.
    destruct (Nat.eqb_spec (width heatmapData) 0) as [E|E]; [lia|].
    rewrite (Nat.add_comm (y * width heatmapData) x).
    rewrite Nat.Div0.mod_add, Nat.mod_small by exact Hxw.
    rewrite Nat.div_add, Nat.div_small by (exact Hxw || exact E).
    reflexivity.
  - unfold cells. rewrite mapIndexed_as_map, length_map, length_combine.
    rewrite length_seq, Nat.min_id. now apply concat_rows_length.
Qed.

Lemma cells_placement_witness :
  let grid := {| position_heatmap := [[0; 5; 12]; [31; 64; 99]]%Q;
                 click_heatmap := [[0; 0; 0]; [0; 1; 0]]%Q;
                 width := 3; height := 2 |} in
  nth_error (cells position grid) (1 * 3 + 2)
  = Some {| key := (Finite 2, Finite 1);
            backgroundColor := Heatmap.getColor 99;
            gridColumn := Finite 3; gridRow := Finite 2 |}.
Proof.
  cbv zeta.
  refine (proj1 (cells_placement position _ 2 1 [31; 64; 99]%Q 99%Q _ _ _)).
  - repeat constructor.
  - reflexivity.
  - reflexivity.
Defined.

Lemma coordinates_injective (w i j : nat) :
  w <> 0%nat ->
  (remainder i w, quotient i w) = (remainder j w, quotient j w) -> i = j.
Proof.
  intros Hw. unfold remainder, quotient.
  destruct (Nat.eqb_spec w 0) as [E|_]; [contradiction|].
  intros H. injection H as Hm Hd.
  rewrite (Nat.div_mod_eq i w), (Nat.div_mod_eq j w). now rewrite Hm, Hd.
Qed.

(** With a width that is not 0, no two cells get the same React key,
    whatever the shape of the grid. *)
Theorem cells_keys_unique (heatmapType : HeatmapType)
    (heatmapData : HeatmapData) :
  width heatmapData <> 0%nat ->
  NoDup (map key (cells heatmapType heatmapData)).
Proof.
  intros Hw. unfold cells.
  set (values := List.concat (currentHeatmap heatmapType heatmapData)).
  assert (E : map key (mapIndexed (cell heatmapData) 0 values)
              = map (fun i => (remainder i (width heatmapData),
                               quotient i (width heatmapData)))
                    (seq 0 (List.length values))).
  { generalize 0%nat. induction values as [|v values IH]; intros k;
      [reflexivity|].
    cbn [mapIndexed map List.length seq]. now rewrite IH. }
  rewrite E. apply Finite.Injective_map_NoDup; [|apply seq_NoDup].
  intros i j H. now apply coordinates_injective with (w := width heatmapData).
Qed.

Lemma cells_keys_unique_witness :
  NoDup (map key (cells click
    {| position_heatmap := []; click_heatmap := [[1; 2]; [3]]%Q;
       width := 2; height := 2 |})).
Proof. apply cells_keys_unique. discriminate. Defined.

End GridFacts.

(** ** What the normalised catalog holds *)

Module CatalogInvariants.

Import Catalog CatalogFacts.
Local Open Scope string_scope.

Lemma renameDevice_client_id (d : Device) :
  client_id (renameDevice d) = client_id d.
Proof. unfold renameDevice. now repeat destruct (_ || _). Qed.

Lemma renameDevice_status (d : Device) : status (renameDevice d) = status d.
Proof. unfold renameDevice. now repeat destruct (_ || _). Qed.

(** The catalog keeps the identifiers of the recognized devices, in the
    order received and with repetitions: nothing is sorted, merged or
    dropped except the devices of an unrecognized kind. *)
Theorem renamedDevices_keeps_ids (devices : list Device) :
  map client_id (renamedDevices devices)
    = map client_id (filter isIoTDevice devices) /\
  map status (renamedDevices devices)
    = map status (filter isIoTDevice devices) /\
  (List.length (renamedDevices devices) <= List.length devices)%nat.
Proof.
  unfold renamedDevices, iotDevices. rewrite !map_map.
  split; [apply map_ext, renameDevice_client_id|].
  split; [apply map_ext, renameDevice_status|].
  rewrite length_map. apply filter_length_le.
Qed.

Lemma renameDevice_never_bare_mouse (d : Device) :
  device_type (renameDevice d) <> "mouse".
Proof.
  unfold renameDevice.
  destruct (device_type d =? "mouse") eqn:Tm; cbn [orb].
  - unfold renamedAs. cbn [device_type]. rewrite Tm. discriminate.
  - apply String.eqb_neq in Tm.
    destruct (includes (name d) "Mouse");
      [unfold renamedAs; cbn [device_type];
       now destruct (device_type d =? "mouse")|].
    destruct (_ || _);
      [unfold renamedAs; cbn [device_type];
       destruct (device_type d =? "keyboard"); [discriminate|exact Tm]|].
    destruct (_ || _); [|exact Tm].
    unfold renamedAs; cbn [device_type].
    destruct (device_type d =? "headset"); [discriminate|exact Tm].
Qed.

Lemma renamedDevices_member (devices : list Device) (d : Device) :
  In d (renamedDevices devices) ->
  exists raw, In raw devices /\ isIoTDevice raw = true /\ d = renameDevice raw.
Proof.
  unfold renamedDevices, iotDevices. intros H.
  apply in_map_iff in H. destruct H as (raw & <- & Hraw).
  apply filter_In in Hraw. destruct Hraw as [Hin Hrec]. now exists raw.
Qed.

(** Every device of the normalised catalog has a recognized kind, never
    the bare kind "mouse"; and if it was renamed at all, its name contains
    "Sensor". *)
Theorem renamedDevices_kinds (devices : list Device) (d : Device) :
  In d (renamedDevices devices) ->
  isIoTDevice d = true /\ device_type d <> "mouse" /\
  (exists raw, In raw devices /\ isIoTDevice raw = true /\
               d = renameDevice raw /\
               (d <> raw -> includes (name d) "Sensor" = true)).
Proof.
  intros H. apply renamedDevices_member in H.
  destruct H as (raw & Hin & Hrec & ->).
  split; [now apply renameDevice_recognized|].
  split; [apply renameDevice_never_bare_mouse|].
  exists raw. repeat split; try assumption.
  unfold renameDevice.
  destruct (_ || _); [intros _; apply renamedAs_has_Sensor|].
  destruct (_ || _); [intros _; apply renamedAs_has_Sensor|].
  destruct (_ || _); [intros _; apply renamedAs_has_Sensor|].
  intros N. now contradiction N.
Qed.

Lemma renamedDevices_kinds_witness :
  let m1 := {| client_id := "m1"; name := "Mouse";
               device_type := "mouse"; status := None |} in
  isIoTDevice (renameDevice m1) = true /\
  device_type (renameDevice m1) <> "mouse".
Proof.
  cbv zeta.
  destruct (renamedDevices_kinds
              [ {| client_id := "m1"; name := "Mouse";
                   device_type := "mouse"; status := None |} ]
              (renameDevice {| client_id := "m1"; name := "Mouse";
                               device_type := "mouse"; status := None |}))
    as (H1 & H2 & _); [left; reflexivity|].
  exact (conj H1 H2).
Defined.

End CatalogInvariants.

(** ** Labels, rows and panels *)

Module ViewFacts.

Import Dashboard Views.
Local Open Scope string_scope.

(** *** Characters *)

Ltac every_byte c := destruct c as [[] [] [] [] [] [] [] []]; reflexivity.

Lemma toUpperCase_idempotent (c : ascii) :
  toUpperCase (toUpperCase c) = toUpperCase c.
Proof. every_byte c. Qed.

Lemma isWordChar_toUpperCase (c : ascii) :
  isWordChar (toUpperCase c) = isWordChar c.
Proof. every_byte c. Qed.

Lemma toUpperCase_underscore (c : ascii) :
  Ascii.eqb (toUpperCase c) "_" = Ascii.eqb c "_".
Proof. every_byte c. Qed.

Lemma includes_underscore (c : ascii) (rest : string) :
  Catalog.includes (String c rest) "_"
  = Ascii.eqb c "_" || Catalog.includes rest "_".
Proof.
  cbn [Catalog.includes prefix].
  destruct (Ascii.eqb_spec c "_") as [->|N].
  - now destruct rest.
  - destruct (ascii_dec "_" c) as [E|_]; [now contradiction N|reflexivity].
Qed.

(** *** [formatEventType] *)

Lemma replaceUnderscores_clean (s : string) :
  Catalog.includes (replaceUnderscores s) "_" = false.
Proof.
  induction s as [|c s IH]; [reflexivity|].
  cbn [replaceUnderscores]. rewrite includes_underscore, IH.
  now destruct (Ascii.eqb_spec c "_") as [->|N]; [|apply Ascii.eqb_neq in N; rewrite N].
Qed.

Lemma replaceUnderscores_of_clean (s : string) :
  Catalog.includes s "_" = false -> replaceUnderscores s = s.
Proof.
  induction s as [|c s IH]; [reflexivity|].
  rewrite includes_underscore. intros H. apply orb_false_iff in H.
  destruct H as [Hc Hs]. cbn [replaceUnderscores]. now rewrite Hc, IH.
Qed.

Lemma capitalizeWords_clean (b : bool) (s : string) :
  Catalog.includes s "_" = false ->
  Catalog.includes (capitalizeWords b s) "_" = false.
Proof.
  revert b. induction s as [|c s IH]; intros b; [reflexivity|].
  rewrite includes_underscore. intros H. apply orb_false_iff in H.
  destruct H as [Hc Hs]. cbn [capitalizeWords].
  rewrite includes_underscore, IH by exact Hs.
  destruct (_ && _); [rewrite toUpperCase_underscore|]; now rewrite Hc.
Qed.

Lemma capitalizeWords_idempotent (b : bool) (s : string) :
  capitalizeWords b (capitalizeWords b s) = capitalizeWords b s.
Proof.
  revert b. induction s as [|c s IH]; intros b; [reflexivity|].
  cbn [capitalizeWords].
  destruct (isWordChar c && negb b) eqn:E.
  - rewrite isWordChar_toUpperCase, E, toUpperCase_idempotent.
    f_equal. apply IH.
  - rewrite E. f_equal. apply IH.
Qed.

Lemma capitalizeWords_length (b : bool) (s : string) :
  String.length (capitalizeWords b s) = String.length s.
Proof.
  revert b. induction s as [|c s IH]; intros b; [reflexivity|].
  cbn [capitalizeWords String.length]. now rewrite IH.
Qed.

Lemma replaceUnderscores_length (s : string) :
  String.length (replaceUnderscores s) = String.length s.
Proof.
  induction s as [|c s IH]; [reflexivity|].
  cbn [replaceUnderscores String.length]. now rewrite IH.
Qed.

Lemma formatEventType_clean (eventType : string) :
  Catalog.includes (formatEventType eventType) "_" = false.
Proof.
  unfold formatEventType.
  destruct (eventType =? "attack_detected"); [reflexivity|].
  destruct (eventType =? "attack_resolved"); [reflexivity|].
  apply capitalizeWords_clean, replaceUnderscores_clean.
Qed.

(** A label never contains an underscore; and unless the event type is one
    of the two with a fixed label, the label has the length of the event
    type: characters are replaced one for one. *)
Theorem formatEventType_shape (eventType : string) :
  Catalog.includes (formatEventType eventType) "_" = false /\
  (eventType <> "attack_detected" -> eventType <> "attack_resolved" ->
   String.length (formatEventType eventType) = String.length eventType).
Proof.
  split; [apply formatEventType_clean|].
  intros N1 N2. unfold formatEventType.
  apply String.eqb_neq in N1, N2. rewrite N1, N2.
  now rewrite capitalizeWords_length, replaceUnderscores_length.
Qed.

Lemma formatEventType_shape_witness :
  Catalog.includes (formatEventType "rate_limit_applied") "_" = false /\
  String.length (formatEventType "rate_limit_applied")
  = String.length "rate_limit_applied".
Proof.
  destruct (formatEventType_shape "rate_limit_applied") as [H1 H2].
  split; [exact H1|]. apply H2; discriminate.
Defined.

(** Formatting a label again changes nothing. *)
Theorem formatEventType_idempotent (eventType : string) :
  formatEventType (formatEventType eventType) = formatEventType eventType.
Proof.
  assert (G : forall label, Catalog.includes label "_" = false ->
                            formatEventType label = capitalizeWords false label).
  { intros label H. unfold formatEventType.
    destruct (String.eqb_spec label "attack_detected") as [->|_];
      [discriminate H|].
    destruct (String.eqb_spec label "attack_resolved") as [->|_];
      [discriminate H|].
    now rewrite replaceUnderscores_of_clean. }
  rewrite G by apply formatEventType_clean.
  unfold formatEventType.
  destruct (eventType =? "attack_detected"); [reflexivity|].
  destruct (eventType =? "attack_resolved"); [reflexivity|].
  apply capitalizeWords_idempotent.
Qed.

(** *** [formatMetricName] *)

Lemma split_not_empty (key : string) : split key <> [].
Proof.
  destruct key as [|c key]; [discriminate|]. cbn [split].
  destruct (Ascii.eqb c "_"); [discriminate|].
  destruct (split key); discriminate.
Qed.

Lemma concat_cons_char (c : ascii) (word : string) (words : list string) :
  String.concat " " (String c word :: words)
  = String c (String.concat " " (word :: words)).
Proof. cbn [String.concat]. now destruct words. Qed.

Lemma concat_empty_first (words : list string) :
  words <> [] ->
  String.concat " " (EmptyString :: words) = String " " (String.concat " " words).
Proof. destruct words; [intros N; now contradiction N|reflexivity]. Qed.

(** Both ways of capitalising agree on a key of word characters: at the
    start of the key, and after a character of a word. *)
Lemma formatMetricName_as_scan (key : string) :
  (forall c, In c (list_ascii_of_string key) -> isWordChar c = true) ->
  String.concat " " (map capitalize (split key))
    = capitalizeWords false (replaceUnderscores key) /\
  match split key with
  | word :: words => String.concat " " (word :: map capitalize words)
  | [] => EmptyString
  end = capitalizeWords true (replaceUnderscores key).
Proof.
  induction key as [|c key IH]; intros Hw; [split; reflexivity|].
  assert (Hc : isWordChar c = true) by (apply Hw; left; reflexivity).
  destruct IH as [IH1 IH2]; [intros c' H'; apply Hw; now right|].
  cbn [split replaceUnderscores capitalizeWords].
  destruct (Ascii.eqb_spec c "_") as [->|N].
  - cbn [map capitalize]. change (isWordChar " ") with false. cbn [andb].
    rewrite concat_empty_first
      by (intros E; apply map_eq_nil in E; now apply split_not_empty in E).
    rewrite IH1. split; reflexivity.
  - rewrite Hc. cbn [andb negb].
    destruct (split key) as [|word words] eqn:E;
      [now apply split_not_empty in E|].
    cbn [map capitalize]. rewrite !concat_cons_char, IH2. split; reflexivity.
Qed.

(** On a key made of ASCII letters, digits and underscores, the metric
    heading is the key with every underscore turned into a space and the
    first character of every word in upper case: the same text as the
    event-type label of that key, the two fixed labels apart. *)
Theorem formatMetricName_of_identifier (key : string) :
  (forall c, In c (list_ascii_of_string key) -> isWordChar c = true) ->
  formatMetricName key = capitalizeWords false (replaceUnderscores key) /\
  Catalog.includes (formatMetricName key) "_" = false /\
  String.length (formatMetricName key) = String.length key /\
  (key <> "attack_detected" -> key <> "attack_resolved" ->
   formatMetricName key = formatEventType key).
Proof.
  intros Hw. unfold formatMetricName.
  destruct (formatMetricName_as_scan key Hw) as [-> _].
  split; [reflexivity|].
  split; [apply capitalizeWords_clean, replaceUnderscores_clean|].
  split; [now rewrite capitalizeWords_length, replaceUnderscores_length|].
  intros N1 N2. unfold formatEventType.
  apply String.eqb_neq in N1, N2. now rewrite N1, N2.
Qed.

Lemma formatMetricName_of_identifier_witness :
  formatMetricName "avg_click_distance" = "Avg Click Distance" /\
  formatMetricName "avg_click_distance" = formatEventType "avg_click_distance".
Proof.
  assert (Hw : forall c, In c (list_ascii_of_string "avg_click_distance") ->
                         isWordChar c = true).
  { cbn. intros c H.
    repeat (destruct H as [<-|H]; [reflexivity|]). destruct H. }
  destruct (formatMetricName_of_identifier "avg_click_distance" Hw)
    as (H1 & _ & _ & H2).
  split; [exact H1|]. apply H2; discriminate.
Defined.

End ViewFacts.

(** ** The latest sample and the alert table *)

Module PanelFacts.

Import Dashboard Views.
Local Open Scope string_scope.
Local Open Scope Z_scope.

Lemma getMostRecentData_setDeviceData (s : State) (earlier : list Sample)
    (x : Sample) :
  getMostRecentData (setDeviceData (earlier ++ [x])%list s) = Some x.
Proof. now apply StatusFacts.getMostRecentData_last with (earlier := earlier). Qed.

(** Only the last sample of the telemetry list is consulted: the attack
    status, the duration shown and the metrics panel are what they would be
    if the list held that sample alone; with an empty list there are no
    metrics and the flag is off. *)
Theorem latest_sample_only (s : State) (earlier : list Sample) (x : Sample)
    (clock : nat -> Z) :
  isAttacked clock (setDeviceData (earlier ++ [x])%list s)
    = isAttacked clock (setDeviceData [x] s) /\
  attackDuration (setDeviceData (earlier ++ [x])%list s)
    = attackDuration (setDeviceData [x] s) /\
  getLatestMetrics (setDeviceData (earlier ++ [x])%list s) = metrics x /\
  getLatestMetrics (setDeviceData [] s) = None /\
  getDeviceStatus (setDeviceData [] s)
    = {| under_attack := false; attack_duration := None;
         battery_level := None; connection_quality := None |}.
Proof.
  assert (E : getDeviceStatus (setDeviceData (earlier ++ [x])%list s)
              = getDeviceStatus (setDeviceData [x] s)).
  { unfold getDeviceStatus.
    now rewrite getMostRecentData_setDeviceData. }
  split; [unfold isAttacked; now rewrite E|].
  split; [unfold attackDuration; now rewrite E|].
  split; [unfold getLatestMetrics; now rewrite getMostRecentData_setDeviceData|].
  split; reflexivity.
Qed.

(** What the metrics panel has after a telemetry fetch: nothing when the
    response has no samples, the metrics of the last sample otherwise, and
    the six fallback metrics after a failure. *)
Theorem getLatestMetrics_after_fetch (s : State) (deviceId : string) (now : Z)
    (earlier : list Sample) (x : Sample) :
  getLatestMetrics
    (fetchDeviceData deviceId now (Resolved (Some {| data := Some [] |})) s)
    = None /\
  getLatestMetrics
    (fetchDeviceData deviceId now (Resolved (Some {| data := None |})) s)
    = None /\
  getLatestMetrics
    (fetchDeviceData deviceId now
       (Resolved (Some {| data := Some (earlier ++ [x])%list |})) s)
    = metrics x /\
  (exists shown, getLatestMetrics (fetchDeviceData deviceId now Rejected s)
                 = Some shown /\
                 map fst shown = [ "clicks_per_second"; "movements_count";
                                   "dpi"; "polling_rate"; "avg_click_distance";
                                   "button_count" ]).
Proof.
  split; [reflexivity|]. split; [reflexivity|].
  split.
  - cbn [fetchDeviceData orEmpty data]. unfold getLatestMetrics.
    now rewrite getMostRecentData_setDeviceData.
  - eexists. split; reflexivity.
Qed.

(** *** The alert table *)

Lemma mapIndexed_length {A B : Type} (f : A -> nat -> B) (l : list A) (k : nat) :
  List.length (mapIndexed f k l) = List.length l.
Proof.
  revert k. induction l as [|a l IH]; intros k; [reflexivity|].
  cbn [mapIndexed List.length]. now rewrite IH.
Qed.

(** The table is absent exactly when there is no alert.  Otherwise it has
    one row per alert, in the reverse of the order of the list: the alert
    at index [i] is shown in row [n - 1 - i], whose key is that row number,
    so the last alert of the list is on top. *)
Theorem alert_rows_newest_first (s : State) (i : nat) (alert : Alert) :
  nth_error (securityAlerts s) i = Some alert ->
  exists rows,
    renderSecurityAlerts s = Some rows /\
    List.length rows = List.length (securityAlerts s) /\
    nth_error rows (List.length (securityAlerts s) - 1 - i)
      = Some (alertRow alert (List.length (securityAlerts s) - 1 - i)).
Proof.
  intros H.
  assert (Hi : (i < List.length (securityAlerts s))%nat)
    by (apply nth_error_Some; congruence).
  unfold renderSecurityAlerts.
  destruct (Nat.eqb_spec (List.length (securityAlerts s)) 0) as [E|_]; [lia|].
  eexists. split; [reflexivity|].
  split; [now rewrite mapIndexed_length, length_rev|].
  rewrite GridFacts.mapIndexed_nth_error, nth_error_rev.
  destruct (Nat.ltb_spec (List.length (securityAlerts s) - 1 - i)
              (List.length (securityAlerts s))) as [_|F]; [|lia].
  replace (List.length (securityAlerts s)
           - S (List.length (securityAlerts s) - 1 - i))%nat with i by lia.
  now rewrite H.
Qed.

Lemma alert_rows_newest_first_witness :
  exists rows,
    renderSecurityAlerts
      (setSecurityAlerts [fallbackAlert 1000; fallbackAlert 2000] initialState)
      = Some rows /\
    nth_error rows 0 = Some (alertRow (fallbackAlert 2000) 0).
Proof.
  destruct (alert_rows_newest_first
              (setSecurityAlerts [fallbackAlert 1000; fallbackAlert 2000]
                 initialState) 1 (fallbackAlert 2000) eq_refl)
    as (rows & H1 & _ & H2).
  exists rows. split; [exact H1|exact H2].
Defined.

Lemma renderSecurityAlerts_empty (s : State) :
  renderSecurityAlerts s = None <-> securityAlerts s = [].
Proof.
  unfold renderSecurityAlerts. destruct (securityAlerts s); cbn; split;
    congruence.
Qed.

Lemma mapIndexed_In {A B : Type} (f : A -> nat -> B) (l : list A) (k : nat)
    (a : A) :
  In a l -> exists index, In (f a index) (mapIndexed f k l).
Proof.
  revert k. induction l as [|x l IH]; intros k; [intros []|].
  intros [->|H]; cbn [mapIndexed].
  - exists k. now left.
  - destruct (IH (S k) H) as [index Hi]. exists index. now right.
Qed.

(** Whenever an alert puts the device under attack, the alert table is
    there and has a row for that alert with the error-coloured badge. *)
Theorem recent_critical_alert_is_listed (clock : nat -> Z) (s : State) :
  hasRecentCriticalAlert clock s = true ->
  exists rows row,
    renderSecurityAlerts s = Some rows /\ In row rows /\
    badgeBackground row = "var(--error-color)" /\
    severity (shown row) = "critical" /\ In (shown row) (securityAlerts s).
Proof.
  unfold hasRecentCriticalAlert. intros H.
  apply StatusFacts.someRecentCritical_iff in H.
  destruct H as (i & alert & Hi & Hr).
  apply StatusFacts.recentCritical_iff in Hr. destruct Hr as [Hsev _].
  assert (Hin : In alert (securityAlerts s))
    by (eapply nth_error_In; exact Hi).
  destruct (mapIndexed_In alertRow (rev (securityAlerts s)) 0 alert)
    as [index Hrow]; [now apply in_rev in Hin|].
  unfold renderSecurityAlerts.
  destruct (securityAlerts s) as [|a l] eqn:E; [destruct Hin|].
  cbn [List.length Nat.eqb].
  eexists. exists (alertRow alert index). split; [reflexivity|].
  split; [exact Hrow|].
  cbn [badgeBackground shown alertRow]. rewrite Hsev.
  repeat split. exact Hin.
Qed.

Lemma recent_critical_alert_is_listed_witness :
  exists rows row,
    renderSecurityAlerts (setSecurityAlerts [fallbackAlert 1000] initialState)
      = Some rows /\
    In row rows /\ badgeBackground row = "var(--error-color)".
Proof.
  destruct (recent_critical_alert_is_listed (fun _ => 2000)
              (setSecurityAlerts [fallbackAlert 1000] initialState) eq_refl)
    as (rows & row & H1 & H2 & H3 & _).
  exists rows, row. repeat split; assumption.
Defined.

End PanelFacts.

(** ** The attack status over time *)

Module VerdictFacts.

Import Dashboard.
Local Open Scope string_scope.
Local Open Scope Z_scope.

Lemma recentCritical_earlier (now later : Z) (alert : Alert) :
  now <= later -> recentCritical later alert = true ->
  recentCritical now alert = true.
Proof.
  intros Hle H. apply StatusFacts.recentCritical_iff in H.
  destruct H as [S (t & E & L)].
  apply StatusFacts.recentCritical_iff. split; [exact S|].
  exists t. split; [exact E|lia].
Qed.

(** For a given state, time can only switch the status off: if the device
    is shown under attack with the later clock readings, it is with the
    earlier ones.  So once the status is off and nothing new arrives, it
    stays off. *)
Theorem status_only_expires (s : State) (clock later : nat -> Z) :
  (forall k, clock k <= later k) ->
  isAttacked later s = true -> isAttacked clock s = true.
Proof.
  intros Hle. unfold isAttacked, hasRecentCriticalAlert.
  rewrite !orb_true_iff. intros [H|H]; [now left|right].
  apply StatusFacts.someRecentCritical_iff in H.
  destruct H as (i & alert & E & R).
  apply StatusFacts.someRecentCritical_iff. exists i, alert.
  split; [exact E|]. eapply recentCritical_earlier; [apply Hle|exact R].
Qed.

Lemma status_only_expires_witness :
  isAttacked (fun _ => 30000)
    (setSecurityAlerts [fallbackAlert 1000] initialState) = true.
Proof.
  apply (status_only_expires _ (fun _ => 30000) (fun _ => 60999)).
  - intros _. discriminate.
  - reflexivity.
Defined.

(** A critical alert stamped later than the clock reads, as happens when
    the two clocks disagree, counts as recent. *)
Theorem future_alert_counts (s : State) (alert : Alert) (t now : Z) :
  In alert (securityAlerts s) -> severity alert = "critical" ->
  newDate (timestamp alert) = Some t -> now <= t ->
  isAttacked (fun _ => now) s = true.
Proof.
  intros Hin Hsev Ht Hle. unfold isAttacked, hasRecentCriticalAlert.
  apply orb_true_iff. right. apply StatusFacts.someRecentCritical_at.
  exists alert. split; [exact Hin|].
  apply StatusFacts.recentCritical_iff. split; [exact Hsev|].
  exists t. split; [exact Ht|lia].
Qed.

Lemma future_alert_counts_witness :
  isAttacked (fun _ => 1000)
    (setSecurityAlerts [fallbackAlert 500000] initialState) = true.
Proof.
  apply (future_alert_counts _ (fallbackAlert 500000) 500000 1000).
  - left. reflexivity.
  - reflexivity.
  - reflexivity.
  - discriminate.
Defined.

End VerdictFacts.

(** ** Requests, pauses and the catalog across a run *)

Module SchedulerFacts.

Import Dashboard Views.
Local Open Scope string_scope.
Local Open Scope Z_scope.

(** *** Stepping *)

Lemma run_invariant (P : World -> Prop) :
  (forall w e w', P w -> step w e = Some w' -> P w') ->
  forall events w w', P w -> run w events = Some w' -> P w'.
Proof.
  intros Hstep. induction events as [|e events IH]; intros w w' Hw Hrun.
  - cbn in Hrun. now injection Hrun as <-.
  - cbn [run] in Hrun. destruct (step w e) as [w1|] eqn:E; [|discriminate].
    eapply IH; [|exact Hrun]. eapply Hstep; eassumption.
Qed.

Lemma settle_In (r x : Request) (pending rest : list Request) :
  settle r pending = Some rest -> In x rest -> In x pending.
Proof.
  revert rest. induction pending as [|p pending IH]; intros rest H Hx;
    [discriminate|].
  cbn [settle] in H. destruct (request_eqb r p).
  - injection H as <-. now right.
  - destruct (settle r pending) as [rest'|]; [|discriminate].
    cbn in H. injection H as <-. destruct Hx as [<-|Hx]; [now left|].
    right. now apply IH with (rest := rest').
Qed.

Lemma fetchData_requests (s : State) (r : Request) :
  In r (fetchData s) ->
  isRefreshing s = true /\
  exists id, selectedDevice s = Some id /\ id <> "" /\
             (r = DeviceDataRequest id \/ r = SecurityAlertsRequest id).
Proof.
  unfold fetchData. destruct (selectedDevice s) as [id|]; [|intros []].
  destruct (isRefreshing s); cbn [andb truthy]; [|intros []].
  destruct (String.eqb_spec id "") as [->|N]; cbn [negb]; [intros []|].
  intros [<-|[<-|[]]]; (split; [reflexivity|]); exists id; auto.
Qed.

Lemma effects_requests (before after : State) (r : Request) :
  In r (effects before after) ->
  r = DevicesRequest (selectedDevice after) \/ In r (fetchData after).
Proof.
  unfold effects. intros H. apply in_app_or in H. destruct H as [H|H].
  - destruct (selection_eqb _ _); [destruct H|].
    destruct H as [<-|[]]. now left.
  - destruct (_ && _); [destruct H|]. now right.
Qed.

(** What a step can add to the requests in flight. *)
Lemma step_requests (w w' : World) (e : Event) (r : Request) :
  step w e = Some w' -> In r (inflight w') ->
  In r (inflight w) \/ (exists selected, r = DevicesRequest selected) \/
  In r (fetchData (ui w')).
Proof.
  intros Hstep Hr.
  destruct e; cbn [step] in Hstep;
    try (destruct (settle _ (inflight w)) as [pending|] eqn:Es; [|discriminate]);
    injection Hstep as <-; cbn [inflight ui commit] in *;
    apply in_app_or in Hr; destruct Hr as [Hr|Hr];
    try (left; exact Hr);
    try (left; eapply settle_In; eassumption);
    try (apply effects_requests in Hr; destruct Hr as [->|Hr];
         [right; left; eexists; reflexivity|right; right; exact Hr]).
  - destruct Hr as [<-|[]]. right. left. eexists. reflexivity.
  - right. right. exact Hr.
Qed.

(** Telemetry and alerts are never requested for the empty device id or
    without a device: in every world reached from the mounted page, each
    such request in flight names a device. *)
Theorem data_requests_name_a_device (events : list Event) (w : World)
    (id : string) :
  run mounted events = Some w ->
  In (DeviceDataRequest id) (inflight w) \/
  In (SecurityAlertsRequest id) (inflight w) ->
  id <> "".
Proof.
  intros Hrun. revert id.
  apply (run_invariant
           (fun w => forall id,
              In (DeviceDataRequest id) (inflight w) \/
              In (SecurityAlertsRequest id) (inflight w) -> id <> ""))
    with (events := events) (w := mounted); [| |exact Hrun].
  - intros w0 e w1 IH Hstep id [H|H];
      (destruct (step_requests _ _ _ _ Hstep H) as [Hold|[[sel E]|Hnew]];
       [apply IH; auto|discriminate E|]);
      apply fetchData_requests in Hnew;
      destruct Hnew as (_ & id' & _ & N & [E|E]); congruence.
  - intros id [[H|[]]|[H|[]]]; discriminate H.
Qed.

Lemma data_requests_name_a_device_witness :
  "m1" <> "".
Proof.
  apply (data_requests_name_a_device
           [ DevicesSettled None
               (Some [ {| Catalog.client_id := "m1"; Catalog.name := "Mouse";
                          Catalog.device_type := "mouse";
                          Catalog.status := None |} ]) ]
           {| ui := fetchDevices None
                      (Some [ {| Catalog.client_id := "m1";
                                 Catalog.name := "Mouse";
                                 Catalog.device_type := "mouse";
                                 Catalog.status := None |} ]) initialState;
              inflight := [ DevicesRequest (Some "m1"); DeviceDataRequest "m1";
                            SecurityAlertsRequest "m1" ] |}).
  - reflexivity.
  - left. right. left. reflexivity.
Defined.

(** *** Pausing *)

Lemma isRefreshing_fetchDevices (selected : option string)
    (response : option (list Catalog.Device)) (s : State) :
  isRefreshing (fetchDevices selected response s) = isRefreshing s.
Proof.
  unfold fetchDevices. destruct response as [listed|];
    repeat destruct (_ && _); repeat destruct (negb _); reflexivity.
Qed.

Lemma isRefreshing_step (w w' : World) (e : Event) :
  e <> PauseClicked -> step w e = Some w' ->
  isRefreshing (ui w') = isRefreshing (ui w).
Proof.
  intros Ne Hstep.
  destruct e; cbn [step] in Hstep; try (now contradiction Ne);
    try (destruct (settle _ (inflight w)) as [pending|]; [|discriminate]);
    injection Hstep as <-; cbn [ui commit]; try reflexivity.
  - apply isRefreshing_fetchDevices.
  - now destruct outcome as [|[result|]].
  - now destruct outcome as [|[result|]].
Qed.

(** While updates are paused, no step but the resume click sends a
    telemetry or alert request: a selection, a change of interval, a timer
    or an arriving response adds none, and the page stays paused.  The
    catalog timer still sends its request. *)
Theorem paused_sends_no_data_request (w w' : World) (e : Event) (id : string) :
  isRefreshing (ui w) = false -> e <> PauseClicked -> step w e = Some w' ->
  isRefreshing (ui w') = false /\
  (In (DeviceDataRequest id) (inflight w') ->
   In (DeviceDataRequest id) (inflight w)) /\
  (In (SecurityAlertsRequest id) (inflight w') ->
   In (SecurityAlertsRequest id) (inflight w)) /\
  step w DevicesTimer
  = Some {| ui := ui w;
            inflight := (inflight w
                         ++ [DevicesRequest (selectedDevice (ui w))])%list |}.
Proof.
  intros Hp Ne Hstep.
  assert (Hp' : isRefreshing (ui w') = false)
    by (rewrite (isRefreshing_step _ _ _ Ne Hstep); exact Hp).
  split; [exact Hp'|].
  assert (Hnone : forall r, In r (fetchData (ui w')) -> False).
  { intros r Hr. apply fetchData_requests in Hr. destruct Hr as [T _].
    congruence. }
  split; [|split; [|reflexivity]]; intros H;
    (destruct (step_requests _ _ _ _ Hstep H) as [Hold|[[sel E]|Hnew]];
     [exact Hold|discriminate E|now apply Hnone in Hnew]).
Qed.

Lemma paused_sends_no_data_request_witness :
  let paused := {| ui := setIsRefreshing false
                           (setSelectedDevice (Some "m1") initialState);
                   inflight := [] |} in
  exists w', step paused (SelectChanged "k1") = Some w' /\
             isRefreshing (ui w') = false /\
             ~ In (DeviceDataRequest "k1") (inflight w').
Proof.
  cbv zeta. eexists. split; [reflexivity|].
  destruct (paused_sends_no_data_request
              {| ui := setIsRefreshing false
                         (setSelectedDevice (Some "m1") initialState);
                 inflight := [] |} _ (SelectChanged "k1") "k1"
              eq_refl ltac:(discriminate) eq_refl) as (H1 & H2 & _).
  split; [exact H1|]. intros H. exact (H2 H).
Defined.

Lemma setIsRefreshing_back (s : State) :
  isRefreshing s = true -> setIsRefreshing true (setIsRefreshing false s) = s.
Proof. destruct s. cbn. now intros ->. Qed.

(** Pausing cancels nothing that is in flight; pausing and resuming brings
    the state back and sends one telemetry and one alert request for the
    selected device at once, without waiting for the timer. *)
Theorem pause_then_resume (w : World) (id : string) :
  isRefreshing (ui w) = true -> selectedDevice (ui w) = Some id -> id <> "" ->
  step w PauseClicked
  = Some {| ui := setIsRefreshing false (ui w); inflight := inflight w |} /\
  run w [PauseClicked; PauseClicked]
  = Some {| ui := ui w;
            inflight := (inflight w ++ [ DeviceDataRequest id;
                                         SecurityAlertsRequest id ])%list |}.
Proof.
  intros Hr Hs Hid. apply String.eqb_neq in Hid.
  assert (E1 : step w PauseClicked
               = Some {| ui := setIsRefreshing false (ui w);
                         inflight := inflight w |}).
  { cbn [step]. unfold commit, effects, fetchData. rewrite Hr.
    cbn [negb setIsRefreshing selectedDevice refreshInterval isRefreshing].
    rewrite Hs. cbn [selection_eqb]. rewrite String.eqb_refl, Z.eqb_refl.
    cbn. now rewrite app_nil_r. }
  split; [exact E1|].
  cbn [run]. rewrite E1. cbn [step run ui inflight].
  unfold commit, effects, fetchData.
  cbn [negb setIsRefreshing selectedDevice refreshInterval isRefreshing].
  rewrite Hs. cbn [selection_eqb truthy]. rewrite String.eqb_refl, Z.eqb_refl, Hid.
  cbn [andb Bool.eqb negb app]. now rewrite (setIsRefreshing_back _ Hr).
Qed.

Lemma pause_then_resume_witness :
  run {| ui := setSelectedDevice (Some "m1") initialState; inflight := [] |}
      [PauseClicked; PauseClicked]
  = Some {| ui := setSelectedDevice (Some "m1") initialState;
            inflight := [DeviceDataRequest "m1"; SecurityAlertsRequest "m1"] |}.
Proof.
  refine (proj2 (pause_then_resume
                   {| ui := setSelectedDevice (Some "m1") initialState;
                      inflight := [] |} "m1" eq_refl eq_refl _)).
  discriminate.
Defined.

(** *** The two fetches of a cycle *)

(** The telemetry response and the alert response of a cycle can arrive in
    either order with the same result; and of two responses of the same
    kind only the later one is kept, whatever each was. *)
Theorem settles_are_independent (s : State) (d1 d2 : string) (t1 t2 : Z)
    (o1 o2 : Settled DeviceDataResult) (a1 a2 : Settled SecurityAlertsResult) :
  fetchDeviceData d1 t1 o1 (fetchSecurityAlerts d2 t2 a2 s)
    = fetchSecurityAlerts d2 t2 a2 (fetchDeviceData d1 t1 o1 s) /\
  fetchDeviceData d2 t2 o2 (fetchDeviceData d1 t1 o1 s)
    = fetchDeviceData d2 t2 o2 s /\
  fetchSecurityAlerts d2 t2 a2 (fetchSecurityAlerts d1 t1 a1 s)
    = fetchSecurityAlerts d2 t2 a2 s.
Proof.
  destruct o1 as [|[r1|]], o2 as [|[r2|]], a1 as [|[b1|]], a2 as [|[b2|]];
    repeat split; reflexivity.
Qed.

End SchedulerFacts.

(** ** The catalog on display and the selection *)

Module SelectionFacts.

Import Dashboard Views.
Local Open Scope string_scope.
Local Open Scope Z_scope.

Lemma devices_fetchDevices (selected : option string)
    (response : option (list Catalog.Device)) (s : State) :
  devices (fetchDevices selected response s)
  = match response with
    | Some listed => Catalog.renamedDevices listed
    | None => Catalog.fallbackDevices
    end.
Proof.
  unfold fetchDevices. destruct response as [listed|];
    repeat destruct (_ && _); repeat destruct (negb _); reflexivity.
Qed.

Lemma devices_step (w w' : World) (e : Event) :
  step w e = Some w' ->
  devices (ui w') = devices (ui w) \/
  (exists listed, devices (ui w') = Catalog.renamedDevices listed) \/
  devices (ui w') = Catalog.fallbackDevices.
Proof.
  intros Hstep.
  destruct e; cbn [step] in Hstep;
    try (destruct (settle _ (inflight w)) as [pending|]; [|discriminate]);
    injection Hstep as <-; cbn [ui commit]; try (left; reflexivity).
  - rewrite devices_fetchDevices. destruct response as [listed|];
      [right; left; now exists listed|right; right; reflexivity].
  - left. now destruct outcome as [|[result|]].
  - left. now destruct outcome as [|[result|]].
Qed.

(** In every world reached from the mounted page, the catalog on display
    holds recognized kinds only and no bare "mouse". *)
Lemma catalog_kinds (events : list Event) (w : World) (d : Catalog.Device) :
  run mounted events = Some w -> In d (devices (ui w)) ->
  Catalog.isIoTDevice d = true /\ Catalog.device_type d <> "mouse".
Proof.
  intros Hrun. revert d.
  apply (SchedulerFacts.run_invariant
           (fun w => forall d, In d (devices (ui w)) ->
              Catalog.isIoTDevice d = true /\ Catalog.device_type d <> "mouse"))
    with (events := events) (w := mounted); [| |exact Hrun].
  - intros w0 e w1 IH Hstep d Hd.
    destruct (devices_step _ _ _ Hstep) as [E|[[listed E]|E]];
      rewrite E in Hd.
    + now apply IH.
    + apply CatalogInvariants.renamedDevices_member in Hd.
      destruct Hd as (raw & _ & Hrec & ->).
      split; [now apply CatalogFacts.renameDevice_recognized|].
      apply CatalogInvariants.renameDevice_never_bare_mouse.
    + destruct Hd as [<-|[<-|[]]]; split; (reflexivity || discriminate).
  - intros d [].
Qed.

Lemma includes_mouse_kind (d : Catalog.Device) :
  Catalog.isIoTDevice d = true -> Catalog.device_type d <> "mouse" ->
  (Catalog.includes (Catalog.device_type d) "mouse" = true <->
   Catalog.device_type d = "mouse_sensor").
Proof.
  unfold Catalog.isIoTDevice. intros H N.
  repeat (apply orb_true_iff in H; destruct H as [H|H]);
    apply String.eqb_eq in H; try congruence; rewrite H;
    split; (reflexivity || discriminate).
Qed.

(** In every world reached from the mounted page, the button heatmap is
    shown exactly when a device is selected, the catalog has a device with
    that id, and the first such device is of kind "mouse_sensor". *)
Theorem button_heatmap_for_mouse_sensors (events : list Event) (w : World) :
  run mounted events = Some w ->
  (showsMouseButtonHeatmap (ui w) = true <->
   truthy (selectedDevice (ui w)) = true /\
   exists d, selectedDeviceObj (ui w) = Some d /\
             Catalog.device_type d = "mouse_sensor").
Proof.
  intros Hrun. unfold showsMouseButtonHeatmap. rewrite andb_true_iff.
  apply and_iff_compat_l.
  destruct (selectedDeviceObj (ui w)) as [d|] eqn:E.
  - assert (Hin : In d (devices (ui w))).
    { unfold selectedDeviceObj in E.
      destruct (selectedDevice (ui w)); [|discriminate].
      now apply find_some in E. }
    destruct (catalog_kinds events w d Hrun Hin) as [H1 H2].
    rewrite (includes_mouse_kind d H1 H2). split.
    + intros H. now exists d.
    + intros (d' & E' & H). now injection E' as ->.
  - split; [discriminate|]. intros (d' & E' & _). discriminate.
Qed.

Lemma button_heatmap_for_mouse_sensors_witness :
  let m1 := {| Catalog.client_id := "m1"; Catalog.name := "Mouse";
               Catalog.device_type := "mouse"; Catalog.status := None |} in
  showsMouseButtonHeatmap (fetchDevices None (Some [m1]) initialState) = true.
Proof.
  cbv zeta.
  refine (proj2 (button_heatmap_for_mouse_sensors
                   [ DevicesSettled None
                       (Some [ {| Catalog.client_id := "m1";
                                  Catalog.name := "Mouse";
                                  Catalog.device_type := "mouse";
                                  Catalog.status := None |} ]) ]
                   {| ui := fetchDevices None
                              (Some [ {| Catalog.client_id := "m1";
                                         Catalog.name := "Mouse";
                                         Catalog.device_type := "mouse";
                                         Catalog.status := None |} ])
                              initialState;
                      inflight := [ DevicesRequest (Some "m1");
                                    DeviceDataRequest "m1";
                                    SecurityAlertsRequest "m1" ] |}
                   eq_refl) _).
  split; [reflexivity|]. eexists. split; reflexivity.
Defined.

(** A catalog response decides on the selection its request was sent
    with, not on the one in force when it arrives.  Sent while a device was
    selected, it never changes the selection.  Sent while none was, it
    selects the first device of the installed list even if the user has
    chosen another one in the meantime. *)
Theorem refresh_uses_the_selection_it_was_sent_with (s : State)
    (selected : option string) (response : option (list Catalog.Device)) :
  (truthy selected = true ->
   selectedDevice (fetchDevices selected response s) = selectedDevice s) /\
  (truthy selected = false ->
   forall first rest,
     devices (fetchDevices selected response s) = first :: rest ->
     selectedDevice (fetchDevices selected response s)
     = Some (Catalog.client_id first)).
Proof.
  split; intros T.
  - unfold fetchDevices. rewrite T. destruct response as [listed|];
      cbn [negb andb]; [rewrite andb_false_r|]; reflexivity.
  - intros first rest H. rewrite devices_fetchDevices in H.
    unfold fetchDevices. rewrite T. destruct response as [listed|];
      cbn [negb]; [rewrite andb_true_r|]; rewrite H; reflexivity.
Qed.

(** The user opens the placeholder entry and then picks k1; the catalog
    response asked for in between arrives afterwards and moves the
    selection to m1. *)
Lemma refresh_uses_the_selection_it_was_sent_with_witness :
  let m1 := {| Catalog.client_id := "m1"; Catalog.name := "Mouse";
               Catalog.device_type := "mouse"; Catalog.status := None |} in
  let k1 := {| Catalog.client_id := "k1"; Catalog.name := "Keyboard";
               Catalog.device_type := "keyboard"; Catalog.status := None |} in
  (exists w,
     run mounted [ DevicesSettled None (Some [m1; k1]); SelectChanged "";
                   SelectChanged "k1" ] = Some w /\
     selectedDevice (ui w) = Some "k1" /\
     In (DevicesRequest (Some "")) (inflight w)) /\
  selectedDevice
    (fetchDevices (Some "") (Some [m1; k1])
       (setSelectedDevice (Some "k1") initialState)) = Some "m1".
Proof.
  cbv zeta. split.
  - eexists. split; [vm_compute; reflexivity|].
    split; [reflexivity|]. cbn. tauto.
  - refine (proj2 (refresh_uses_the_selection_it_was_sent_with
                     (setSelectedDevice (Some "k1") initialState) (Some "")
                     (Some [ {| Catalog.client_id := "m1";
                                Catalog.name := "Mouse";
                                Catalog.device_type := "mouse";
                                Catalog.status := None |};
                             {| Catalog.client_id := "k1";
                                Catalog.name := "Keyboard";
                                Catalog.device_type := "keyboard";
                                Catalog.status := None |} ]))
                  eq_refl _ _ eq_refl).
Defined.

End SelectionFacts.
